(** * Encore runtime: parsing of the runtime and static configuration

    Shallow embedding of [runtime/appruntime/exported/config/parse.go]
    ([ParseRuntime], [ParseStatic]) together with the part of Go's
    [encoding/base64] that the two functions call, reference models of
    [json.Unmarshal] and [url.Parse] to run the loaders on concrete blobs,
    and the properties the specification states about the loaders. *)

From Stdlib Require Import ZArith List Strings.String Strings.Ascii Strings.Byte Lia Bool.
Import ListNotations.
Local Open Scope string_scope.
Local Open Scope list_scope.
Local Open Scope Z_scope.

(** ** Go values *)

(** A Go [[]byte]. *)
Definition bytes := list byte.

(** The Go conversions [[]byte(s)] and [string(b)]. *)
Definition bytes_of_string (s : string) : bytes := list_byte_of_string s.
Definition string_of_bytes (b : bytes) : string := string_of_list_byte b.

(** The error values that reach [log.Fatalln] in [parse.go]:
    [base64.CorruptInputError] with its offset, [*json.SyntaxError] (message
    and offset left out), [*json.UnmarshalTypeError] with its [Value] and
    [Field], [url.EscapeError], [*url.Error] with its [Op], [URL] and wrapped
    error, and [errors.New] values. *)
Inductive error : Type :=
| CorruptInputError (offset : Z)
| SyntaxError
| UnmarshalTypeError (value : string) (field : string)
| EscapeError (s : string)
| url_Error (op : string) (url : string) (err : error)
| errorString (s : string).

(** ** encoding/base64 *)

Module base64.

Definition encodeStd : string :=
  "ABCDEFGHIJKLMNOPQRSTUVWXYZabcdefghijklmnopqrstuvwxyz0123456789+/".
Definition encodeURL : string :=
  "ABCDEFGHIJKLMNOPQRSTUVWXYZabcdefghijklmnopqrstuvwxyz0123456789-_".

Definition StdPadding : byte := "="%byte.

(** [Encoding]: the 64-byte alphabet and the padding character, [None]
    standing for [NoPadding].  Neither encoding used by [parse.go] is
    strict, so the [strict] flag is left out. *)
Record Encoding : Type := {
  encode : bytes;
  padChar : option byte
}.

Definition NewEncoding (encoder : string) : Encoding :=
  {| encode := bytes_of_string encoder; padChar := Some StdPadding |}.

Definition WithPadding (enc : Encoding) (padding : option byte) : Encoding :=
  {| encode := encode enc; padChar := padding |}.

Definition StdEncoding : Encoding := NewEncoding encodeStd.
Definition URLEncoding : Encoding := NewEncoding encodeURL.
Definition RawURLEncoding : Encoding := WithPadding URLEncoding None.

(** [enc.encode[v]]. *)
Definition encode_at (enc : Encoding) (v : Z) : byte :=
  nth (Z.to_nat v) (encode enc) x00.

Fixpoint index_from (c : byte) (l : bytes) (i : Z) : Z :=
  match l with
  | [] => 255
  | x :: l' => if Byte.eqb x c then i else index_from c l' (i + 1)
  end.

(** [enc.decodeMap[c]]: the position of [c] in the alphabet, [0xff] when
    [c] is not part of it. *)
Definition decodeMap (enc : Encoding) (c : byte) : Z :=
  index_from c (encode enc) 0.

Definition Z_of_byte (b : byte) : Z := Z.of_N (Byte.to_N b).

(** The conversion [byte(v)] of an unsigned integer. *)
Definition byte_of_Z (v : Z) : byte :=
  match Byte.of_N (Z.to_N (Z.land v 255)) with
  | Some b => b
  | None => x00
  end.

Definition is_pad (enc : Encoding) (c : byte) : bool :=
  match padChar enc with
  | Some p => Byte.eqb c p
  | None => false
  end.

Definition has_padding (enc : Encoding) : bool :=
  match padChar enc with Some _ => true | None => false end.

Definition is_newline (c : byte) : bool :=
  Byte.eqb c x0a || Byte.eqb c x0d.

(** *** Encoding *)

Definition pad (enc : Encoding) (n : nat) : bytes :=
  match padChar enc with
  | Some p => repeat p n
  | None => []
  end.

(** [Encoding.Encode]: full groups of three bytes, then the remainder. *)
Fixpoint Encode (enc : Encoding) (src : bytes) : bytes :=
  match src with
  | [] => []
  | [b0] =>
      let val := Z.shiftl (Z_of_byte b0) 16 in
      encode_at enc (Z.land (Z.shiftr val 18) 63)
        :: encode_at enc (Z.land (Z.shiftr val 12) 63)
        :: pad enc 2
  | [b0; b1] =>
      let val := Z.lor (Z.shiftl (Z_of_byte b0) 16) (Z.shiftl (Z_of_byte b1) 8) in
      encode_at enc (Z.land (Z.shiftr val 18) 63)
        :: encode_at enc (Z.land (Z.shiftr val 12) 63)
        :: encode_at enc (Z.land (Z.shiftr val 6) 63)
        :: pad enc 1
  | b0 :: b1 :: b2 :: rest =>
      let val := Z.lor (Z.lor (Z.shiftl (Z_of_byte b0) 16)
                              (Z.shiftl (Z_of_byte b1) 8))
                       (Z_of_byte b2) in
      encode_at enc (Z.land (Z.shiftr val 18) 63)
        :: encode_at enc (Z.land (Z.shiftr val 12) 63)
        :: encode_at enc (Z.land (Z.shiftr val 6) 63)
        :: encode_at enc (Z.land val 63)
        :: Encode enc rest
  end.

Definition EncodeToString (enc : Encoding) (src : bytes) : string :=
  string_of_bytes (Encode enc src).

(** *** Decoding *)

(** The four 6-bit values of the quantum being decoded ([dbuf]). *)
Definition dbuf : Type := (Z * Z * Z * Z)%type.

Definition dbuf_set (d : dbuf) (j : nat) (v : Z) : dbuf :=
  let '(d0, d1, d2, d3) := d in
  match j with
  | 0%nat => (v, d1, d2, d3)
  | 1%nat => (d0, v, d2, d3)
  | 2%nat => (d0, d1, v, d3)
  | _ => (d0, d1, d2, v)
  end.

(** The tail of [decodeQuantum]: four 6-bit values become three bytes, of
    which the first [dlen - 1] are written. *)
Definition quantum_bytes (d : dbuf) (dlen : nat) : bytes :=
  let '(d0, d1, d2, d3) := d in
  let val := Z.lor (Z.lor (Z.lor (Z.shiftl d0 18) (Z.shiftl d1 12))
                          (Z.shiftl d2 6)) d3 in
  firstn (dlen - 1)
    [byte_of_Z (Z.shiftr val 16); byte_of_Z (Z.shiftr val 8); byte_of_Z val].

Fixpoint skip_newlines (src : bytes) (si : Z) : bytes * Z :=
  match src with
  | c :: src' => if is_newline c then skip_newlines src' (si + 1) else (src, si)
  | [] => ([], si)
  end.

(** [Encoding.Decode] with [decodeQuantum] inlined: [src] is what is left
    of the input from offset [si] on, [len] the length of the whole input,
    [j] and [d] the position in and content of the current quantum, [dst]
    the bytes written so far.  The result is [dst[:n], err]. *)
Fixpoint decode_from (enc : Encoding) (len : Z) (src : bytes) (si : Z)
    (j : nat) (d : dbuf) (dst : bytes) : bytes * option error :=
  match src with
  | [] =>
      match j with
      | 0%nat => (dst, None)
      | 1%nat => (dst, Some (CorruptInputError (si - Z.of_nat j)))
      | _ =>
          if has_padding enc
          then (dst, Some (CorruptInputError (si - Z.of_nat j)))
          else (dst ++ quantum_bytes d j, None)
      end
  | c :: src' =>
      let si := si + 1 in
      let out := decodeMap enc c in
      if negb (out =? 255) then
        let d := dbuf_set d j out in
        match j with
        | 3%nat => decode_from enc len src' si 0 (0, 0, 0, 0) (dst ++ quantum_bytes d 4)
        | _ => decode_from enc len src' si (S j) d dst
        end
      else if is_newline c then decode_from enc len src' si j d dst
      else if negb (is_pad enc c) then (dst, Some (CorruptInputError (si - 1)))
      else
        (* the end is reached and there is padding *)
        match j with
        | 0%nat | 1%nat => (dst, Some (CorruptInputError (si - 1)))
        | _ =>
            let after_pad :=
              match j with
              | 2%nat =>
                  let '(src2, si2) := skip_newlines src' si in
                  match src2 with
                  | [] => inl (CorruptInputError len)
                  | c2 :: src3 =>
                      if negb (is_pad enc c2)
                      then inl (CorruptInputError (si2 - 1))
                      else inr (src3, si2 + 1)
                  end
              | _ => inr (src', si)
              end in
            match after_pad with
            | inl e => (dst, Some e)
            | inr (src3, si3) =>
                let '(src4, si4) := skip_newlines src3 si3 in
                match src4 with
                | [] => (dst ++ quantum_bytes d j, None)
                | _ :: _ =>
                    (* trailing garbage *)
                    (dst ++ quantum_bytes d j, Some (CorruptInputError si4))
                end
            end
        end
  end.

Definition Decode (enc : Encoding) (src : bytes) : bytes * option error :=
  decode_from enc (Z.of_nat (List.length src)) src 0 0 (0, 0, 0, 0) [].

Definition DecodeString (enc : Encoding) (s : string) : bytes * option error :=
  Decode enc (bytes_of_string s).

End base64.

(** ** The process: library calls, fatal exits *)

(** What a run of a loader does that can be observed from outside: the calls
    it makes into the standard library, in order.  [log.Fatalln] prints its
    arguments and ends the process with [os.Exit(1)]. *)
Inductive call : Type :=
| CallStdDecodeString (s : string)
| CallRawURLDecodeString (s : string)
| CallUnmarshal (data : bytes)
| CallParse (rawURL : string)
| CallFatalln (msg : string) (err : option error).

(** How a run ends: the function returns to its caller, or the process has
    been terminated by [log.Fatalln]. *)
Inductive outcome (A : Type) : Type :=
| Returned (a : A)
| Exited (msg : string) (err : option error).
Arguments Returned {A} a.
Arguments Exited {A} msg err.

Record run (A : Type) : Type := mkRun {
  calls : list call;
  result : outcome A
}.
Arguments mkRun {A} calls result.
Arguments calls {A} r.
Arguments result {A} r.

Definition ret {A : Type} (a : A) : run A := mkRun [] (Returned a).

Definition bind {A B : Type} (m : run A) (k : A -> run B) : run B :=
  match result m with
  | Returned a => let r := k a in mkRun (calls m ++ calls r) (result r)
  | Exited msg err => mkRun (calls m) (Exited msg err)
  end.

(** A library call that returns [a]. *)
Definition perform {A : Type} (c : call) (a : A) : run A := mkRun [c] (Returned a).

Definition log_Fatalln {A : Type} (msg : string) (err : option error) : run A :=
  mkRun [CallFatalln msg err] (Exited msg err).

Declare Scope run_scope.
Delimit Scope run_scope with run.
Notation "x <- m ;; k" := (bind m (fun x => k))
  (at level 61, m at next level, right associativity) : run_scope.
Notation "' pat <- m ;; k" := (bind m (fun x => match x with pat => k end))
  (at level 61, pat pattern, m at next level, right associativity) : run_scope.
Notation "m ;; k" := (bind m (fun _ => k))
  (at level 61, right associativity) : run_scope.
Local Open Scope run_scope.

(** ** The configuration types and the library *)

(** [Runtime]: [parse.go] reads [APIBaseURL] and reads and writes
    [DeployID], both strings.  The struct is declared in another file of the
    package; its remaining fields are kept together in [OtherFields], of a
    type the development is parametric in. *)
Record Runtime (Other : Type) : Type := mkRuntime {
  APIBaseURL : string;
  DeployID : string;
  OtherFields : Other
}.
Arguments mkRuntime {Other} APIBaseURL DeployID OtherFields.
Arguments APIBaseURL {Other} r.
Arguments DeployID {Other} r.
Arguments OtherFields {Other} r.

(** The statement [cfg.DeployID = deployID]. *)
Definition set_DeployID {Other : Type} (cfg : Runtime Other) (deployID : string)
  : Runtime Other :=
  mkRuntime (APIBaseURL cfg) deployID (OtherFields cfg).

(** What [parse.go] takes from outside the file: the declarations of
    [Runtime] and [Static] with their zero values, [json.Unmarshal] at these
    two types (the struct behind the pointer goes in, the struct as it is
    after the call comes out with the error), and [url.Parse]. *)
Class Library : Type := {
  Other : Type;
  zero_Other : Other;
  Static : Type;
  zero_Static : Static;
  URL : Type;
  Unmarshal_Runtime : bytes -> Runtime Other -> Runtime Other * option error;
  Unmarshal_Static : bytes -> Static -> Static * option error;
  Parse : string -> option URL * option error
}.


Section Loaders.
Context {L : Library}.

(** [var cfg Runtime]. *)
Definition zero_Runtime : Runtime Other := mkRuntime "" "" zero_Other.

Definition StdEncoding_DecodeString (s : string) : run (bytes * option error) :=
  perform (CallStdDecodeString s) (base64.DecodeString base64.StdEncoding s).

Definition RawURLEncoding_DecodeString (s : string) : run (bytes * option error) :=
  perform (CallRawURLDecodeString s) (base64.DecodeString base64.RawURLEncoding s).

Definition json_Unmarshal_Runtime (data : bytes) (cfg : Runtime Other)
  : run (Runtime Other * option error) :=
  perform (CallUnmarshal data) (Unmarshal_Runtime data cfg).

Definition json_Unmarshal_Static (data : bytes) (cfg : Static)
  : run (Static * option error) :=
  perform (CallUnmarshal data) (Unmarshal_Static data cfg).

Definition url_Parse (rawURL : string) : run (option URL * option error) :=
  perform (CallParse rawURL) (Parse rawURL).

(** [ParseRuntime] parses the Encore runtime config. *)
Definition ParseRuntime (config deployID : string) : run (Runtime Other) :=
  (if String.eqb config ""
   then log_Fatalln "encore runtime: fatal error: no encore runtime config provided" None
   else ret tt) ;;
  (* We used to support RawURLEncoding, but now we use StdEncoding.
     Try both if StdEncoding fails. *)
  '(bytes, err) <- StdEncoding_DecodeString config ;;
  '(bytes, err) <- match err with
                   | Some _ => RawURLEncoding_DecodeString config
                   | None => ret (bytes, err)
                   end ;;
  match err with
  | Some _ =>
      log_Fatalln "encore runtime: fatal error: could not decode encore runtime config:" err
  | None => ret tt
  end ;;
  let cfg := zero_Runtime in
  '(cfg, err) <- json_Unmarshal_Runtime bytes cfg ;;
  match err with
  | Some _ =>
      log_Fatalln "encore runtime: fatal error: could not parse encore runtime config:" err
  | None => ret tt
  end ;;
  '(_, err) <- url_Parse (APIBaseURL cfg) ;;
  match err with
  | Some _ =>
      log_Fatalln "encore runtime: fatal error: could not parse api base url from encore runtime config:" err
  | None => ret tt
  end ;;
  (* If the environment deploy ID is set, use that instead of the one
     embedded in the runtime config *)
  let cfg := if negb (String.eqb deployID "") then set_DeployID cfg deployID else cfg in
  ret cfg.

(** [ParseStatic] parses the Encore static config. *)
Definition ParseStatic (config : string) : run Static :=
  (if String.eqb config ""
   then log_Fatalln "encore runtime: fatal error: no encore static config provided" None
   else ret tt) ;;
  '(bytes, err) <- StdEncoding_DecodeString config ;;
  match err with
  | Some _ =>
      log_Fatalln "encore runtime: fatal error: could not decode encore static config:" err
  | None => ret tt
  end ;;
  let cfg := zero_Static in
  '(cfg, err) <- json_Unmarshal_Static bytes cfg ;;
  match err with
  | Some _ =>
      log_Fatalln "encore runtime: fatal error: could not parse encore static config:" err
  | None => ret tt
  end ;;
  ret cfg.

End Loaders.

(** ** Vocabulary of the specification *)

Section Vocabulary.
Context {L : Library}.

(** The decoding policy of [ParseRuntime] as a function of the blob: the
    standard decoding, and the URL-safe unpadded one when the standard one
    fails. *)
Definition decode_config (config : string) : bytes * option error :=
  match base64.DecodeString base64.StdEncoding config with
  | (b, None) => (b, None)
  | (_, Some _) => base64.DecodeString base64.RawURLEncoding config
  end.

(** The calls the decoding policy makes. *)
Definition decode_calls (config : string) : list call :=
  CallStdDecodeString config ::
  match snd (base64.DecodeString base64.StdEncoding config) with
  | Some _ => [CallRawURLDecodeString config]
  | None => []
  end.

(** The struct [json.Unmarshal] leaves when given the decoded blob and a
    zero [Runtime]: the configuration embedded in the blob. *)
Definition embedded (config : string) : Runtime Other :=
  fst (Unmarshal_Runtime (fst (decode_config config)) zero_Runtime).

(** The override policy. *)
Definition override (cfg : Runtime Other) (deployID : string) : Runtime Other :=
  if String.eqb deployID "" then cfg else set_DeployID cfg deployID.


(** The run makes the fallback attempt on [config]. *)
Definition attempts_fallback {A : Type} (config : string) (r : run A) : Prop :=
  In (CallRawURLDecodeString config) (calls r).

(** The run never calls the URL-safe decoder. *)
Definition no_fallback {A : Type} (r : run A) : Prop :=
  forall s, ~ In (CallRawURLDecodeString s) (calls r).

End Vocabulary.

(** The messages of the fatal exits, one per stage. *)
Definition no_runtime_config : string :=
  "encore runtime: fatal error: no encore runtime config provided".
Definition runtime_decode_failed : string :=
  "encore runtime: fatal error: could not decode encore runtime config:".
Definition runtime_parse_failed : string :=
  "encore runtime: fatal error: could not parse encore runtime config:".
Definition runtime_url_failed : string :=
  "encore runtime: fatal error: could not parse api base url from encore runtime config:".
Definition no_static_config : string :=
  "encore runtime: fatal error: no encore static config provided".
Definition static_decode_failed : string :=
  "encore runtime: fatal error: could not decode encore static config:".
Definition static_parse_failed : string :=
  "encore runtime: fatal error: could not parse encore static config:".

(** The standard and the URL-safe unpadded encoding of a payload. *)
Definition std_blob (payload : bytes) : string :=
  base64.EncodeToString base64.StdEncoding payload.
Definition rawurl_blob (payload : bytes) : string :=
  base64.EncodeToString base64.RawURLEncoding payload.

(** ** encoding/json: a reference model

    The syntax [checkValid] accepts and the unquoting of string literals.
    Messages and offsets of syntax errors are left out. *)

Module json.

Local Open Scope char_scope.
Local Open Scope Z_scope.
#[local] Set Warnings "-register-all".

(** A decoded JSON text.  Numbers keep their literal. *)
Inductive value : Type :=
| Null
| Bool (b : bool)
| Number (lit : string)
| Str (s : string)
| Array (elems : list value)
| Object (members : list (string * value)).

Definition code (c : ascii) : Z := Z.of_N (N_of_ascii c).
Definition chr (v : Z) : ascii := ascii_of_N (Z.to_N v).

Definition isSpace (c : ascii) : bool :=
  (code c =? 32) || (code c =? 9) || (code c =? 13) || (code c =? 10).

Fixpoint skip_space (s : string) : string :=
  match s with
  | String c s' => if isSpace c then skip_space s' else s
  | EmptyString => s
  end.

Definition isDigit (c : ascii) : bool := (48 <=? code c) && (code c <=? 57).

Fixpoint digits (s : string) : string * string :=
  match s with
  | String c s' =>
      if isDigit c then let '(ds, r) := digits s' in (String c ds, r)
      else (EmptyString, s)
  | EmptyString => (EmptyString, s)
  end.

(** A number literal at the head of [s]: an optional minus sign, then a
    single 0 or a non-zero digit followed by digits, then optionally a dot
    with one or more digits, then optionally an exponent (e or E, an
    optional sign, one or more digits). *)
Definition number (s : string) : option (string * string) :=
  let '(sign, s1) :=
    match s with String "-" r => ("-"%string, r) | _ => (EmptyString, s) end in
  let int_part :=
    match s1 with
    | String "0" r => Some ("0"%string, r)
    | String c r =>
        if isDigit c then let '(ds, r') := digits r in Some (String c ds, r')
        else None
    | EmptyString => None
    end in
  match int_part with
  | None => None
  | Some (ip, s2) =>
      let frac :=
        match s2 with
        | String "." r =>
            match digits r with
            | (EmptyString, _) => None
            | (ds, r') => Some (String "." ds, r')
            end
        | _ => Some (EmptyString, s2)
        end in
      match frac with
      | None => None
      | Some (fp, s3) =>
          let exp :=
            match s3 with
            | String e r =>
                if (code e =? 101) || (code e =? 69) then
                  let '(sg, r1) :=
                    match r with
                    | String "+" r' => ("+"%string, r')
                    | String "-" r' => ("-"%string, r')
                    | _ => (EmptyString, r)
                    end in
                  match digits r1 with
                  | (EmptyString, _) => None
                  | (ds, r') => Some (String e (sg ++ ds), r')
                  end
                else Some (EmptyString, s3)
            | EmptyString => Some (EmptyString, s3)
            end in
          match exp with
          | None => None
          | Some (ep, s4) => Some ((sign ++ ip ++ fp ++ ep)%string, s4)
          end
      end
  end.

Definition hex (c : ascii) : option Z :=
  let v := code c in
  if (48 <=? v) && (v <=? 57) then Some (v - 48)
  else if (97 <=? v) && (v <=? 102) then Some (v - 87)
  else if (65 <=? v) && (v <=? 70) then Some (v - 55)
  else None.

(** [getu4] on the four characters after a backslash-u. *)
Definition getu4 (a b c d : ascii) : option Z :=
  match hex a, hex b, hex c, hex d with
  | Some x, Some y, Some z, Some w => Some (x * 4096 + y * 256 + z * 16 + w)
  | _, _, _, _ => None
  end.

(** [utf8.EncodeRune], surrogates and out-of-range values becoming
    U+FFFD. *)
Definition EncodeRune (r : Z) : string :=
  if r <? 128 then String (chr r) EmptyString
  else if r <? 2048 then
    String (chr (Z.lor 192 (Z.shiftr r 6)))
      (String (chr (Z.lor 128 (Z.land r 63))) EmptyString)
  else if ((55296 <=? r) && (r <=? 57343)) || (1114111 <? r) then
    String (chr 239) (String (chr 191) (String (chr 189) EmptyString))
  else if r <? 65536 then
    String (chr (Z.lor 224 (Z.shiftr r 12)))
      (String (chr (Z.lor 128 (Z.land (Z.shiftr r 6) 63)))
         (String (chr (Z.lor 128 (Z.land r 63))) EmptyString))
  else
    String (chr (Z.lor 240 (Z.shiftr r 18)))
      (String (chr (Z.lor 128 (Z.land (Z.shiftr r 12) 63)))
         (String (chr (Z.lor 128 (Z.land (Z.shiftr r 6) 63)))
            (String (chr (Z.lor 128 (Z.land r 63))) EmptyString))).

Definition between (lo hi : Z) (c : ascii) : bool :=
  (lo <=? code c) && (code c <=? hi).

(** The width of the UTF-8 sequence at the head of [s] as
    [utf8.DecodeRune] finds it; [0] when the head is not a valid
    sequence (the rune is then [RuneError], of width 1). *)
Definition rune_width (s : string) : nat :=
  match s with
  | EmptyString => 0
  | String c0 r =>
      let v := code c0 in
      let two := match r with
                 | String c1 _ => if between 128 191 c1 then 2%nat else 0%nat
                 | _ => 0%nat
                 end in
      let three lo hi :=
        match r with
        | String c1 (String c2 _) =>
            if between lo hi c1 && between 128 191 c2 then 3%nat else 0%nat
        | _ => 0%nat
        end in
      let four lo hi :=
        match r with
        | String c1 (String c2 (String c3 _)) =>
            if between lo hi c1 && between 128 191 c2 && between 128 191 c3
            then 4%nat else 0%nat
        | _ => 0%nat
        end in
      if v <? 128 then 1%nat
      else if (194 <=? v) && (v <=? 223) then two
      else if v =? 224 then three 160 191
      else if v =? 237 then three 128 159
      else if (225 <=? v) && (v <=? 239) then three 128 191
      else if v =? 240 then four 144 191
      else if (241 <=? v) && (v <=? 243) then four 128 191
      else if v =? 244 then four 128 143
      else 0%nat
  end.

Definition RuneError : Z := 65533.

(** [utf16.DecodeRune]. *)
Definition utf16_DecodeRune (r1 r2 : Z) : Z :=
  if (55296 <=? r1) && (r1 <? 56320) && (56320 <=? r2) && (r2 <? 57344)
  then Z.lor (Z.shiftl (r1 - 55296) 10) (r2 - 56320) + 65536
  else RuneError.

Definition IsSurrogate (r : Z) : bool := (55296 <=? r) && (r <? 57344).

(** The content of a string literal whose opening quote has been read,
    unquoted as [unquoteBytes] does, and the input after the closing
    quote.  [k] counts the continuation bytes of a multi-byte sequence
    still to be copied.  [None]: the literal is not well formed. *)
Fixpoint unquote (k : nat) (s : string) : option (string * string) :=
  let emit (p : string) (o : option (string * string)) :=
    match o with
    | Some (t, r) => Some ((p ++ t)%string, r)
    | None => None
    end in
  match s with
  | EmptyString => None
  | String c r =>
      match k with
      | S k' => emit (String c EmptyString) (unquote k' r)
      | O =>
          if code c =? 34 then Some (EmptyString, r)
          else if code c =? 92 then
            match r with
            | EmptyString => None
            | String e r1 =>
                let one (v : Z) := emit (String (chr v) EmptyString) (unquote 0 r1) in
                if code e =? 34 then one 34
                else if code e =? 92 then one 92
                else if code e =? 47 then one 47
                else if code e =? 98 then one 8
                else if code e =? 102 then one 12
                else if code e =? 110 then one 10
                else if code e =? 114 then one 13
                else if code e =? 116 then one 9
                else if code e =? 117 then
                  match r1 with
                  | String h0 (String h1 (String h2 (String h3 r2))) =>
                      match getu4 h0 h1 h2 h3 with
                      | None => None
                      | Some rr =>
                          if IsSurrogate rr then
                            match r2 with
                            | String b (String u (String g0 (String g1 (String g2 (String g3 r3))))) =>
                                match (if (code b =? 92) && (code u =? 117)
                                       then getu4 g0 g1 g2 g3 else None) with
                                | Some rr1 =>
                                    if utf16_DecodeRune rr rr1 =? RuneError
                                    then emit (EncodeRune RuneError) (unquote 0 r2)
                                    else emit (EncodeRune (utf16_DecodeRune rr rr1)) (unquote 0 r3)
                                | None => emit (EncodeRune RuneError) (unquote 0 r2)
                                end
                            | _ => emit (EncodeRune RuneError) (unquote 0 r2)
                            end
                          else emit (EncodeRune rr) (unquote 0 r2)
                      end
                  | _ => None
                  end
                else None
            end
          else if code c <? 32 then None
          else
            match rune_width s with
            | O => emit (EncodeRune RuneError) (unquote 0 r)
            | S n => emit (String c EmptyString) (unquote n r)
            end
      end
  end.

Definition maxNestingDepth : Z := 10000.

Definition literal (lit : string) (v : value) (s : string) : option (value * string) :=
  if String.prefix lit s
  then Some (v, String.substring (String.length lit) (String.length s - String.length lit) s)
  else None.

(** One JSON value at the head of [s] (after white space) and the input
    that follows it; [depth] is the nesting depth so far.  [fuel] bounds the
    recursion: of two successive recursive calls at least one consumes a
    byte, so [parse] gives twice the length of the input. *)
Fixpoint parse_value (fuel : nat) (depth : Z) (s : string) {struct fuel}
  : option (value * string) :=
  match fuel with
  | O => None
  | S fuel' =>
      match skip_space s with
      | EmptyString => None
      | String c r as s0 =>
          if code c =? 123 then
            if maxNestingDepth <? depth + 1 then None
            else match skip_space r with
                 | String "}" r' => Some (Object [], r')
                 | _ => parse_members fuel' (depth + 1) r []
                 end
          else if code c =? 91 then
            if maxNestingDepth <? depth + 1 then None
            else match skip_space r with
                 | String "]" r' => Some (Array [], r')
                 | _ => parse_elements fuel' (depth + 1) r []
                 end
          else if code c =? 34 then
            match unquote 0 r with
            | Some (t, r') => Some (Str t, r')
            | None => None
            end
          else if code c =? 116 then literal "true" (Bool true) s0
          else if code c =? 102 then literal "false" (Bool false) s0
          else if code c =? 110 then literal "null" Null s0
          else
            match number s0 with
            | Some (n, r') => Some (Number n, r')
            | None => None
            end
      end
  end
with parse_elements (fuel : nat) (depth : Z) (s : string) (acc : list value)
    {struct fuel} : option (value * string) :=
  match fuel with
  | O => None
  | S fuel' =>
      match parse_value fuel' depth s with
      | None => None
      | Some (v, r) =>
          match skip_space r with
          | String "," r' => parse_elements fuel' depth r' (acc ++ [v])
          | String "]" r' => Some (Array (acc ++ [v]), r')
          | _ => None
          end
      end
  end
with parse_members (fuel : nat) (depth : Z) (s : string)
    (acc : list (string * value)) {struct fuel} : option (value * string) :=
  match fuel with
  | O => None
  | S fuel' =>
      match skip_space s with
      | String q r =>
          if code q =? 34 then
            match unquote 0 r with
            | None => None
            | Some (key, r1) =>
                match skip_space r1 with
                | String ":" r2 =>
                    match parse_value fuel' depth r2 with
                    | None => None
                    | Some (v, r3) =>
                        match skip_space r3 with
                        | String "," r4 => parse_members fuel' depth r4 (acc ++ [(key, v)])
                        | String "}" r4 => Some (Object (acc ++ [(key, v)]), r4)
                        | _ => None
                        end
                    end
                | _ => None
                end
            end
          else None
      | EmptyString => None
      end
  end.

(** The whole of [data] as one JSON value; [None] is what [checkValid]
    reports as a [SyntaxError]. *)
Definition parse (data : bytes) : option value :=
  let s := string_of_bytes data in
  match parse_value (2 * String.length s + 2) 0 s with
  | Some (v, r) =>
      match skip_space r with
      | EmptyString => Some v
      | String _ _ => None
      end
  | None => None
  end.

(** The [Value] of an [UnmarshalTypeError]. *)
Definition kind (v : value) : string :=
  match v with
  | Null => "null"
  | Bool _ => "bool"
  | Number _ => "number"
  | Str _ => "string"
  | Array _ => "array"
  | Object _ => "object"
  end%string.

(** Field names are matched exactly or under case folding, in which the
    long s (U+017F) and the Kelvin sign (U+212A) fold with s and k. *)
Fixpoint foldName (s : string) : string :=
  match s with
  | EmptyString => EmptyString
  | String c r =>
      let v := code c in
      if (97 <=? v) && (v <=? 122) then String (chr (v - 32)) (foldName r)
      else
        match r with
        | String c1 r1 =>
            if (v =? 197) && (code c1 =? 191) then String "S" (foldName r1)
            else
              match r1 with
              | String c2 r2 =>
                  if (v =? 226) && (code c1 =? 132) && (code c2 =? 170)
                  then String "K" (foldName r2)
                  else String c (foldName r)
              | EmptyString => String c (foldName r)
              end
        | EmptyString => String c EmptyString
        end
  end.

Definition matches (key field : string) : bool :=
  String.eqb key field || String.eqb (foldName key) (foldName field).

(** [d.saveError]: the first error is the one reported. *)
Definition saveError (saved : option error) (e : error) : option error :=
  match saved with
  | Some _ => saved
  | None => Some e
  end.

End json.

(** ** net/url: a reference model of the verdict of [Parse] *)

Module url.

Local Open Scope char_scope.
Local Open Scope Z_scope.

Definition code (c : ascii) : Z := Z.of_N (N_of_ascii c).

(** [stringContainsCTLByte]: a byte below the space or the byte 0x7f. *)
Fixpoint stringContainsCTLByte (s : string) : bool :=
  match s with
  | EmptyString => false
  | String c r => (code c <? 32) || (code c =? 127) || stringContainsCTLByte r
  end.

(** [strings.Cut s sep] for a one-byte separator: what is before the first
    [sep], what is after it, and whether [sep] occurs. *)
Fixpoint Cut (s : string) (sep : ascii) : string * string * bool :=
  match s with
  | EmptyString => (EmptyString, EmptyString, false)
  | String c r =>
      if Ascii.eqb c sep then (EmptyString, r, true)
      else let '(b, a, found) := Cut r sep in (String c b, a, found)
  end.

Fixpoint Contains (s : string) (c : ascii) : bool :=
  match s with
  | EmptyString => false
  | String c' r => Ascii.eqb c' c || Contains r c
  end.

Definition isLetter (c : ascii) : bool :=
  ((97 <=? code c) && (code c <=? 122)) || ((65 <=? code c) && (code c <=? 90)).

Definition isSchemeMark (c : ascii) : bool :=
  ((48 <=? code c) && (code c <=? 57)) || (code c =? 43) || (code c =? 45) || (code c =? 46).

(** [getScheme]: [first] tells whether the byte at hand is the first of
    [rawURL].  The result is the scheme with what follows the colon, or
    the empty scheme with the whole of [rawURL]. *)
Fixpoint getScheme_from (first : bool) (rawURL s : string) (scheme : string)
  : (string * string) + error :=
  match s with
  | EmptyString => inl (EmptyString, rawURL)
  | String c r =>
      if isLetter c then getScheme_from false rawURL r (scheme ++ String c EmptyString)%string
      else if isSchemeMark c then
        if first then inl (EmptyString, rawURL)
        else getScheme_from false rawURL r (scheme ++ String c EmptyString)%string
      else if code c =? 58 then
        if first then inr (errorString "missing protocol scheme")
        else inl (scheme, r)
      else inl (EmptyString, rawURL)
  end.

Definition getScheme (rawURL : string) : (string * string) + error :=
  getScheme_from true rawURL rawURL EmptyString.

Definition ishex (c : ascii) : bool :=
  ((48 <=? code c) && (code c <=? 57)) || ((97 <=? code c) && (code c <=? 102))
  || ((65 <=? code c) && (code c <=? 70)).

(** The check [unescape] makes on a path or a fragment: every percent
    sign is followed by two hexadecimal digits.  The error carries the
    offending escape, at most three bytes long. *)
Fixpoint check_escapes (s : string) : option error :=
  match s with
  | EmptyString => None
  | String c r =>
      if code c =? 37 then
        match r with
        | String h1 (String h2 r') =>
            if ishex h1 && ishex h2 then check_escapes r'
            else Some (EscapeError (String c (String h1 (String h2 EmptyString))))
        | _ => Some (EscapeError s)
        end
      else check_escapes r
  end.

(** [parse rawURL false], as far as its verdict goes: the control-byte
    check, the scheme, the colon check on the first segment of a relative
    path, and the escapes of the path.  The checks [parseAuthority] makes
    on user info, host and port are not modelled: every authority is
    accepted. *)
Definition parse (rawURL : string) : option error :=
  if stringContainsCTLByte rawURL
  then Some (errorString "net/url: invalid control character in URL")
  else if String.eqb rawURL "*" then None
  else
    match getScheme rawURL with
    | inr e => Some e
    | inl (scheme, rest) =>
        let '(rest, _, _) := Cut rest "?" in
        if negb (String.prefix "/" rest) && negb (String.eqb scheme "") then None
        else if negb (String.prefix "/" rest)
                && (let '(segment, _, _) := Cut rest "/" in Contains segment ":")
        then Some (errorString "first path segment in URL cannot contain colon")
        else
          let path :=
            if String.prefix "//" rest
               && (negb (String.eqb scheme "") || negb (String.prefix "///" rest))
            then
              let authority := String.substring 2 (String.length rest - 2) rest in
              let '(_, after, found) := Cut authority "/" in
              if found then String "/" after else EmptyString
            else rest in
          check_escapes path
    end.

(** [Parse]: the fragment is cut off and checked on its own. *)
Definition Parse (rawURL : string) : option unit * option error :=
  let '(u, frag, _) := Cut rawURL "#" in
  match parse u with
  | Some err => (None, Some (url_Error "parse" u err))
  | None =>
      if String.eqb frag "" then (Some tt, None)
      else
        match check_escapes frag with
        | Some err => (None, Some (url_Error "parse" rawURL err))
        | None => (Some tt, None)
        end
  end.

End url.

(** ** A reference library

    An instance of [Library] on which the loaders can be run on concrete
    blobs.  The properties below that are stated for every [Library] do not
    depend on it. *)

Module Reference.

(** Modelled from the spec: the declaration of [Runtime] is missing from
    the sources.  The specification names two fields, the API base URL and
    the deploy identifier, and writes them [APIBaseURL] and [DeployID] in
    its JSON payloads; the reference struct has these two and no other. *)
Definition RuntimeOther : Type := unit.

(** Modelled from the spec: the declaration of [Static] is missing from
    the sources and the specification names none of its fields; the
    reference keeps the members of the decoded object. *)
Definition StaticConfig : Type := list (string * json.value).

(** Decoding one member of the top-level object into the struct: string
    fields take JSON strings, [null] leaves the field as it is, any other
    value is an [UnmarshalTypeError] and decoding goes on. *)
Definition decode_member (st : Runtime RuntimeOther * option error)
    (m : string * json.value) : Runtime RuntimeOther * option error :=
  let '(cfg, saved) := st in
  let '(key, v) := m in
  let field (name : string) (set : string -> Runtime RuntimeOther) :=
    match v with
    | json.Str s => (set s, saved)
    | json.Null => (cfg, saved)
    | _ => (cfg, json.saveError saved (UnmarshalTypeError (json.kind v) name))
    end in
  if json.matches key "APIBaseURL"
  then field "APIBaseURL" (fun s => mkRuntime s (DeployID cfg) (OtherFields cfg))
  else if json.matches key "DeployID"
  then field "DeployID" (fun s => mkRuntime (APIBaseURL cfg) s (OtherFields cfg))
  else (cfg, saved).

Definition UnmarshalRuntime (data : bytes) (cfg : Runtime RuntimeOther)
  : Runtime RuntimeOther * option error :=
  match json.parse data with
  | None => (cfg, Some SyntaxError)
  | Some (json.Object members) => fold_left decode_member members (cfg, None)
  | Some json.Null => (cfg, None)
  | Some v => (cfg, Some (UnmarshalTypeError (json.kind v) ""))
  end.

Definition UnmarshalStatic (data : bytes) (cfg : StaticConfig)
  : StaticConfig * option error :=
  match json.parse data with
  | None => (cfg, Some SyntaxError)
  | Some (json.Object members) => (cfg ++ members, None)
  | Some json.Null => (cfg, None)
  | Some v => (cfg, Some (UnmarshalTypeError (json.kind v) ""))
  end.

Definition library : Library := {|
  Other := RuntimeOther;
  zero_Other := tt;
  Static := StaticConfig;
  zero_Static := [];
  URL := unit;
  Unmarshal_Runtime := UnmarshalRuntime;
  Unmarshal_Static := UnmarshalStatic;
  Parse := url.Parse
|}.

(** A JSON text written with apostrophes where the double quotes go. *)
Fixpoint quoted (s : string) : string :=
  match s with
  | EmptyString => EmptyString
  | String c r =>
      String (if Ascii.eqb c "'"%char then ascii_of_nat 34 else c) (quoted r)
  end.

Definition payload (s : string) : bytes := bytes_of_string (quoted s).

(** The payload of the scenarios of the specification. *)
Definition scenario : bytes :=
  payload "{'APIBaseURL':'https://api.example.com','DeployID':'abc123'}".

(** The control character U+0001. *)
Definition U0001 : string := String (ascii_of_nat 1) EmptyString.

(** A payload whose API base URL holds the control character U+0001. *)
Definition control_character : bytes :=
  payload "{'APIBaseURL':'http://x/\u0001','DeployID':'abc123'}".

(** A payload whose API base URL holds the control character U+0001 in its
    fragment, after the number sign. *)
Definition control_character_in_fragment : bytes :=
  payload "{'APIBaseURL':'http://h/p#\u0001','DeployID':'abc123'}".


(** A carriage return and a line feed. *)
Definition CRLF : string := String (ascii_of_nat 13) (String (ascii_of_nat 10) EmptyString).

(** The standard encoding of the empty JSON object, wrapped over two
    lines. *)
Definition wrapped : string := ("e3" ++ CRLF ++ "0=" ++ CRLF)%string.

End Reference.


(** ** Further vocabulary *)

(** [s] holds nothing but line breaks (carriage returns and line feeds). *)
Definition only_line_breaks (s : string) : bool :=
  forallb base64.is_newline (bytes_of_string s).

(** The byte [c] occurs in the blob. *)
Definition occurs_in (c : byte) (config : string) : Prop :=
  In c (bytes_of_string config).

(** At the byte [c] the two alphabets give the same value and the two
    decoders go on alike, or a decoder that does not know the byte stops at
    it. *)
Definition alphabets_agree_at (c : byte) : bool :=
  let s := base64.decodeMap base64.StdEncoding c in
  let r := base64.decodeMap base64.RawURLEncoding c in
  ((s =? r) && (negb (s =? 255) || base64.is_newline c
                || negb (base64.is_pad base64.StdEncoding c)))
  || ((s =? 255) && negb (base64.is_newline c)
      && negb (base64.is_pad base64.StdEncoding c))
  || ((r =? 255) && negb (base64.is_newline c)).

(** The bytes of a blob other than carriage returns and line feeds. *)
Definition drop_line_breaks (l : bytes) : bytes :=
  filter (fun c => negb (base64.is_newline c)) l.

(** The blob without its carriage returns and line feeds. *)
Definition strip_line_breaks (s : string) : string :=
  string_of_bytes (drop_line_breaks (bytes_of_string s)).

(** Two results of a decoder are alike: both are errors, or both are the
    same bytes without error. *)
Definition same_decoding (x y : bytes * option error) : Prop :=
  match snd x, snd y with
  | None, None => fst x = fst y
  | Some _, Some _ => True
  | _, _ => False
  end.

(** Two outcomes are the same, or both are the fatal exit of the decoding
    stage (message [decode_failed]) with a [CorruptInputError] each, which
    may differ in the offset. *)
Definition same_up_to_offset {A : Type} (decode_failed : string)
    (r1 r2 : outcome A) : Prop :=
  r1 = r2
  \/ exists n1 n2,
       r1 = Exited decode_failed (Some (CorruptInputError n1))
       /\ r2 = Exited decode_failed (Some (CorruptInputError n2)).

(** The run never calls [url.Parse]. *)
Definition no_validation {A : Type} (r : run A) : Prop :=
  forall s, ~ In (CallParse s) (calls r).

(** * Properties *)

(** ** base64: decoding what was encoded *)

Section Base64Arith.

Lemma testbit_small (b k n : Z) : 0 <= b < 2 ^ k -> k <= n -> Z.testbit b n = false.
Proof.
  intros Hb Hn.
  destruct (Z.eq_dec b 0) as [->|Hz]; [apply Z.bits_0|].
  apply Z.bits_above_log2; [lia|].
  assert (Z.log2 b < k); [|lia].
  apply Z.log2_lt_pow2; lia.
Qed.

Lemma lor_shiftl_add (a b k : Z) :
  0 <= k -> 0 <= b < 2 ^ k -> Z.lor (Z.shiftl a k) b = a * 2 ^ k + b.
Proof.
  intros Hk Hb.
  rewrite <- Z.shiftl_mul_pow2 by lia.
  rewrite <- Z.add_lor_land.
  assert (Z.land (Z.shiftl a k) b = 0) as ->; [|lia].
  apply Z.bits_inj'; intros n Hn.
  rewrite Z.land_spec, Z.bits_0.
  destruct (Z.lt_ge_cases n k).
  - rewrite Z.shiftl_spec_low by lia. reflexivity.
  - rewrite (testbit_small b k n) by lia. apply Bool.andb_false_r.
Qed.

(** Bit fields that do not overlap add up. *)
Lemma lor_add_disjoint (x y k : Z) :
  0 <= k -> x mod 2 ^ k = 0 -> 0 <= y < 2 ^ k -> Z.lor x y = x + y.
Proof.
  intros Hk Hx Hy.
  assert (x = Z.shiftl (x / 2 ^ k) k) as Ex.
  { rewrite Z.shiftl_mul_pow2 by lia.
    pose proof (Z.div_mod x (2 ^ k)). lia. }
  rewrite Ex at 1. rewrite lor_shiftl_add by lia.
  pose proof (Z.div_mod x (2 ^ k)). lia.
Qed.

Lemma land_63 (x : Z) : Z.land x 63 = x mod 64.
Proof. change 63 with (Z.ones 6). rewrite Z.land_ones by lia. reflexivity. Qed.

Lemma land_255 (x : Z) : Z.land x 255 = x mod 256.
Proof. change 255 with (Z.ones 8). rewrite Z.land_ones by lia. reflexivity. Qed.

Lemma pack3 (a b c : Z) :
  0 <= a < 256 -> 0 <= b < 256 -> 0 <= c < 256 ->
  Z.lor (Z.lor (Z.shiftl a 16) (Z.shiftl b 8)) c = a * 65536 + b * 256 + c.
Proof.
  intros Ha Hb Hc.
  rewrite !Z.shiftl_mul_pow2 by lia.
  rewrite (lor_add_disjoint (a * 2 ^ 16) (b * 2 ^ 8) 16) by (try apply Z_mod_mult; lia).
  rewrite (lor_add_disjoint _ c 8); [lia | lia | | lia].
  change (2 ^ 16) with (256 * 2 ^ 8). 
  rewrite Z.mul_assoc, <- Z.mul_add_distr_r. apply Z_mod_mult.
Qed.

Lemma pack4 (s0 s1 s2 s3 : Z) :
  0 <= s0 < 64 -> 0 <= s1 < 64 -> 0 <= s2 < 64 -> 0 <= s3 < 64 ->
  Z.lor (Z.lor (Z.lor (Z.shiftl s0 18) (Z.shiftl s1 12)) (Z.shiftl s2 6)) s3
  = s0 * 262144 + s1 * 4096 + s2 * 64 + s3.
Proof.
  intros H0 H1 H2 H3.
  rewrite !Z.shiftl_mul_pow2 by lia.
  rewrite (lor_add_disjoint (s0 * 2 ^ 18) (s1 * 2 ^ 12) 18) by (try apply Z_mod_mult; lia).
  rewrite (lor_add_disjoint (s0 * 2 ^ 18 + s1 * 2 ^ 12) (s2 * 2 ^ 6) 12).
  - rewrite (lor_add_disjoint _ s3 6); [lia | lia | | lia].
    change (2 ^ 18) with (4096 * 2 ^ 6). change (2 ^ 12) with (64 * 2 ^ 6).
    rewrite !Z.mul_assoc, <- !Z.mul_add_distr_r. apply Z_mod_mult.
  - lia.
  - change (2 ^ 18) with (64 * 2 ^ 12).
    rewrite Z.mul_assoc, <- Z.mul_add_distr_r. apply Z_mod_mult.
  - lia.
Qed.

End Base64Arith.

Section Base64RoundTrip.
Import base64.

Lemma Z_of_byte_range (b : byte) : 0 <= Z_of_byte b < 256.
Proof. unfold Z_of_byte. pose proof (Byte.to_N_bounded b). lia. Qed.

Lemma byte_of_Z_spec (v : Z) (b : byte) : v mod 256 = Z_of_byte b -> byte_of_Z v = b.
Proof.
  intros H. unfold byte_of_Z. rewrite land_255, H. unfold Z_of_byte.
  rewrite N2Z.id, Byte.of_to_N. reflexivity.
Qed.

(** The three decoded bytes of a full quantum are the three encoded ones. *)
Lemma quantum_bytes_4 (b0 b1 b2 : byte) :
  let val := Z.lor (Z.lor (Z.shiftl (Z_of_byte b0) 16) (Z.shiftl (Z_of_byte b1) 8))
                   (Z_of_byte b2) in
  quantum_bytes (Z.land (Z.shiftr val 18) 63, Z.land (Z.shiftr val 12) 63,
                 Z.land (Z.shiftr val 6) 63, Z.land val 63) 4
  = [b0; b1; b2].
Proof.
  intros val. subst val.
  pose proof (Z_of_byte_range b0). pose proof (Z_of_byte_range b1).
  pose proof (Z_of_byte_range b2).
  rewrite pack3 by assumption.
  unfold quantum_bytes. rewrite !land_63, !Z.shiftr_div_pow2 by lia.
  rewrite pack4 by (apply Z.mod_pos_bound; lia).
  rewrite ?Z.shiftr_div_pow2 by lia.
  change (2 ^ 18) with 262144. change (2 ^ 12) with 4096. change (2 ^ 6) with 64.
  change (2 ^ 16) with 65536. change (2 ^ 8) with 256.
  simpl firstn.
  f_equal; [|f_equal; [|f_equal]]; apply byte_of_Z_spec;
    Z.div_mod_to_equations; lia.
Qed.

Lemma quantum_bytes_3 (b0 b1 : byte) :
  let val := Z.lor (Z.shiftl (Z_of_byte b0) 16) (Z.shiftl (Z_of_byte b1) 8) in
  quantum_bytes (Z.land (Z.shiftr val 18) 63, Z.land (Z.shiftr val 12) 63,
                 Z.land (Z.shiftr val 6) 63, 0) 3
  = [b0; b1].
Proof.
  intros val. subst val.
  pose proof (Z_of_byte_range b0). pose proof (Z_of_byte_range b1).
  rewrite <- (Z.lor_0_r (Z.lor _ _)).
  rewrite pack3 by (try assumption; lia).
  unfold quantum_bytes. rewrite !land_63, !Z.shiftr_div_pow2 by lia.
  rewrite pack4 by (try (apply Z.mod_pos_bound; lia); lia).
  rewrite ?Z.shiftr_div_pow2 by lia.
  change (2 ^ 18) with 262144. change (2 ^ 12) with 4096. change (2 ^ 6) with 64.
  change (2 ^ 16) with 65536. change (2 ^ 8) with 256.
  simpl firstn.
  f_equal; [|f_equal]; apply byte_of_Z_spec; Z.div_mod_to_equations; lia.
Qed.

Lemma quantum_bytes_2 (b0 : byte) :
  let val := Z.shiftl (Z_of_byte b0) 16 in
  quantum_bytes (Z.land (Z.shiftr val 18) 63, Z.land (Z.shiftr val 12) 63, 0, 0) 2
  = [b0].
Proof.
  intros val. subst val.
  pose proof (Z_of_byte_range b0).
  rewrite Z.shiftl_mul_pow2 by lia.
  unfold quantum_bytes. rewrite !land_63, !Z.shiftr_div_pow2 by lia.
  rewrite pack4 by (try (apply Z.mod_pos_bound; lia); lia).
  rewrite ?Z.shiftr_div_pow2 by lia.
  change (2 ^ 18) with 262144. change (2 ^ 12) with 4096.
  change (2 ^ 16) with 65536.
  simpl firstn.
  f_equal; apply byte_of_Z_spec; Z.div_mod_to_equations; lia.
Qed.

End Base64RoundTrip.

Lemma list_ind3 {A : Type} (P : list A -> Prop) :
  P [] -> (forall a, P [a]) -> (forall a b, P [a; b]) ->
  (forall a b c l, P l -> P (a :: b :: c :: l)) ->
  forall l, P l.
Proof.
  intros H0 H1 H2 H3. fix IH 1.
  intros [|a [|b [|c l]]]; [apply H0 | apply H1 | apply H2 | apply H3, IH].
Qed.

Section DecodeEncode.
Import base64.

Variable enc : Encoding.

(** The alphabet has 64 distinct bytes, and the padding character (when
    there is one) is not one of them and is no line break. *)
Hypothesis alphabet :
  forall v, 0 <= v < 64 -> decodeMap enc (encode_at enc v) = v.
Hypothesis padding :
  forall p, padChar enc = Some p -> decodeMap enc p = 255 /\ is_newline p = false.

Lemma sextet_range (x : Z) : 0 <= Z.land x 63 < 64.
Proof. rewrite land_63. apply Z.mod_pos_bound. lia. Qed.

Lemma decode_from_symbol (len v : Z) (src : bytes) (si : Z) (j : nat) (d : dbuf)
    (dst : bytes) :
  0 <= v < 64 ->
  decode_from enc len (encode_at enc v :: src) si j d dst =
  match j with
  | 3%nat => decode_from enc len src (si + 1) 0 (0, 0, 0, 0)
               (dst ++ quantum_bytes (dbuf_set d j v) 4)
  | _ => decode_from enc len src (si + 1) (S j) (dbuf_set d j v) dst
  end.
Proof.
  intros Hv. cbn [decode_from]. rewrite alphabet by assumption.
  destruct (v =? 255) eqn:E; [lia|]. reflexivity.
Qed.

Lemma decode_from_pad (len : Z) (si : Z) (j : nat) (d : dbuf) (dst : bytes) :
  (2 <= j <= 3)%nat ->
  decode_from enc len (pad enc (4 - j)) si j d dst = (dst ++ quantum_bytes d j, None).
Proof.
  intros Hj. unfold pad.
  destruct (padChar enc) as [p|] eqn:Ep.
  - destruct (padding p eq_refl) as [Hmap Hnl].
    assert (is_pad enc p = true) as Hpad.
    { unfold is_pad. rewrite Ep. apply Byte.byte_dec_lb. reflexivity. }
    destruct j as [|[|[|[|j]]]]; try lia.
    + cbn [Nat.sub repeat decode_from skip_newlines].
      rewrite Hmap, Hnl, Hpad. cbn. reflexivity.
    + cbn [Nat.sub repeat decode_from skip_newlines].
      rewrite Hmap, Hnl, Hpad. cbn. reflexivity.
  - destruct j as [|[|[|[|j]]]]; try lia;
      cbn [decode_from]; unfold has_padding; rewrite Ep; reflexivity.
Qed.

Lemma decode_from_Encode (p : bytes) :
  forall (len si : Z) (dst : bytes),
    decode_from enc len (Encode enc p) si 0 (0, 0, 0, 0) dst = (dst ++ p, None).
Proof.
  induction p as [|b0|b0 b1|b0 b1 b2 p IH] using list_ind3; intros len si dst.
  - cbn. rewrite app_nil_r. reflexivity.
  - cbn [Encode].
    rewrite !decode_from_symbol by apply sextet_range.
    cbn [dbuf_set].
    rewrite (decode_from_pad len _ 2) by lia.
    rewrite quantum_bytes_2. reflexivity.
  - cbn [Encode].
    rewrite !decode_from_symbol by apply sextet_range.
    cbn [dbuf_set].
    rewrite (decode_from_pad len _ 3) by lia.
    rewrite quantum_bytes_3. reflexivity.
  - cbn [Encode].
    rewrite !decode_from_symbol by apply sextet_range.
    cbn [dbuf_set].
    rewrite quantum_bytes_4, IH, <- app_assoc. reflexivity.
Qed.

Lemma Decode_Encode (p : bytes) : Decode enc (Encode enc p) = (p, None).
Proof. unfold Decode. apply (decode_from_Encode p _ 0 []). Qed.

Lemma DecodeString_EncodeToString (p : bytes) :
  DecodeString enc (EncodeToString enc p) = (p, None).
Proof.
  unfold DecodeString, EncodeToString, bytes_of_string, string_of_bytes.
  rewrite list_byte_of_string_of_list_byte. apply Decode_Encode.
Qed.

End DecodeEncode.

Lemma alphabet_StdEncoding (v : Z) :
  0 <= v < 64 ->
  base64.decodeMap base64.StdEncoding (base64.encode_at base64.StdEncoding v) = v.
Proof.
  intros Hv.
  assert (forallb (fun n => base64.decodeMap base64.StdEncoding
                              (base64.encode_at base64.StdEncoding (Z.of_nat n))
                            =? Z.of_nat n) (seq 0 64) = true) as H
    by (vm_compute; reflexivity).
  rewrite forallb_forall in H. specialize (H (Z.to_nat v)).
  rewrite Z2Nat.id in H by lia. apply Z.eqb_eq, H, in_seq. lia.
Qed.

Lemma alphabet_RawURLEncoding (v : Z) :
  0 <= v < 64 ->
  base64.decodeMap base64.RawURLEncoding (base64.encode_at base64.RawURLEncoding v) = v.
Proof.
  intros Hv.
  assert (forallb (fun n => base64.decodeMap base64.RawURLEncoding
                              (base64.encode_at base64.RawURLEncoding (Z.of_nat n))
                            =? Z.of_nat n) (seq 0 64) = true) as H
    by (vm_compute; reflexivity).
  rewrite forallb_forall in H. specialize (H (Z.to_nat v)).
  rewrite Z2Nat.id in H by lia. apply Z.eqb_eq, H, in_seq. lia.
Qed.

(** Standard base64 decodes what it encoded. *)
Lemma StdEncoding_round_trip (payload : bytes) :
  base64.DecodeString base64.StdEncoding (std_blob payload) = (payload, None).
Proof.
  apply DecodeString_EncodeToString.
  - apply alphabet_StdEncoding.
  - intros p [= <-]. vm_compute. split; reflexivity.
Qed.

(** So does the URL-safe unpadded encoding. *)
Lemma RawURLEncoding_round_trip (payload : bytes) :
  base64.DecodeString base64.RawURLEncoding (rawurl_blob payload) = (payload, None).
Proof.
  apply DecodeString_EncodeToString.
  - apply alphabet_RawURLEncoding.
  - intros p [=].
Qed.

Lemma std_blob_nonempty (payload : bytes) : payload <> [] -> std_blob payload <> "".
Proof.
  intros H. unfold std_blob, base64.EncodeToString, string_of_bytes.
  destruct payload as [|b0 [|b1 [|b2 p]]]; [congruence | | |]; cbn; discriminate.
Qed.

Lemma rawurl_blob_nonempty (payload : bytes) : payload <> [] -> rawurl_blob payload <> "".
Proof.
  intros H. unfold rawurl_blob, base64.EncodeToString, string_of_bytes.
  destruct payload as [|b0 [|b1 [|b2 p]]]; [congruence | | |]; cbn; discriminate.
Qed.

(** ** The library models at a few inputs *)

Example StdEncoding_missing_padding :
  base64.DecodeString base64.StdEncoding "e30" = ([], Some (CorruptInputError 0)).
Proof. vm_compute. reflexivity. Qed.

Example StdEncoding_trailing_garbage :
  base64.DecodeString base64.StdEncoding "e30=x"
  = (Reference.payload "{}", Some (CorruptInputError 4)).
Proof. vm_compute. reflexivity. Qed.

Example StdEncoding_incomplete_padding :
  base64.DecodeString base64.StdEncoding "ew=" = ([], Some (CorruptInputError 3)).
Proof. vm_compute. reflexivity. Qed.

Example StdEncoding_skips_line_breaks :
  base64.DecodeString base64.StdEncoding
    ("e3" ++ String (ascii_of_nat 13) (String (ascii_of_nat 10) "0="))%string
  = (Reference.payload "{}", None).
Proof. vm_compute. reflexivity. Qed.

Example StdEncoding_refuses_url_alphabet :
  base64.DecodeString base64.StdEncoding "-_-_" = ([], Some (CorruptInputError 0)).
Proof. vm_compute. reflexivity. Qed.

Example RawURLEncoding_refuses_padding :
  base64.DecodeString base64.RawURLEncoding "e30=" = ([], Some (CorruptInputError 3)).
Proof. vm_compute. reflexivity. Qed.

Example RawURLEncoding_unpadded :
  base64.DecodeString base64.RawURLEncoding "e30" = (Reference.payload "{}", None).
Proof. vm_compute. reflexivity. Qed.

(** The two encodings of the payload of the scenarios are the same string:
    its length is a multiple of three and no 6-bit group is 62 or 63. *)
Example scenario_encodings_coincide :
  rawurl_blob Reference.scenario = std_blob Reference.scenario.
Proof. vm_compute. reflexivity. Qed.

Example Unmarshal_folds_case :
  Reference.UnmarshalRuntime
    (Reference.payload "{'apibaseurl':'a','DEPLOYID':'b','unknown':[1,2]}")
    (mkRuntime "" "" tt)
  = (mkRuntime "a" "b" tt, None).
Proof. vm_compute. reflexivity. Qed.

Example Unmarshal_null_keeps_field :
  Reference.UnmarshalRuntime (Reference.payload "{'DeployID':null}") (mkRuntime "a" "b" tt)
  = (mkRuntime "a" "b" tt, None).
Proof. vm_compute. reflexivity. Qed.

Example Unmarshal_type_error :
  Reference.UnmarshalRuntime (Reference.payload "{'APIBaseURL':12,'DeployID':'b'}")
    (mkRuntime "" "" tt)
  = (mkRuntime "" "b" tt, Some (UnmarshalTypeError "number" "APIBaseURL")).
Proof. vm_compute. reflexivity. Qed.

Example Unmarshal_syntax_error :
  snd (Reference.UnmarshalRuntime (Reference.payload "{'DeployID':'b',}") (mkRuntime "" "" tt))
  = Some SyntaxError
  /\ snd (Reference.UnmarshalRuntime [] (mkRuntime "" "" tt)) = Some SyntaxError.
Proof. vm_compute. split; reflexivity. Qed.

Example Parse_accepts :
  url.Parse "" = (Some tt, None)
  /\ url.Parse "https://api.example.com" = (Some tt, None)
  /\ url.Parse "/v1/%41?q=%zz#top" = (Some tt, None).
Proof. vm_compute. repeat split; reflexivity. Qed.

Example Parse_refuses :
  url.Parse ":80"
  = (None, Some (url_Error "parse" ":80" (errorString "missing protocol scheme")))
  /\ url.Parse "a:b/c" = (Some tt, None)
  /\ url.Parse "1a:b/c"
     = (None, Some (url_Error "parse" "1a:b/c"
                      (errorString "first path segment in URL cannot contain colon")))
  /\ url.Parse "http://h/%zz"
     = (None, Some (url_Error "parse" "http://h/%zz" (EscapeError "%zz"))).
Proof. vm_compute. repeat split; reflexivity. Qed.

(** The second scenario of the specification: the same blob with the
    override xyz789. *)
Example scenario_with_override :
  result (ParseRuntime (L := Reference.library) (std_blob Reference.scenario) "xyz789")
  = Returned (mkRuntime "https://api.example.com" "xyz789" tt).
Proof. vm_compute. reflexivity. Qed.

(** ** The runs of the two loaders, case by case *)

Section Runs.
Context {L : Library}.

Lemma ParseRuntime_cases (config deployID : string) :
  ParseRuntime config deployID =
  if String.eqb config ""
  then mkRun [CallFatalln no_runtime_config None] (Exited no_runtime_config None)
  else
    let '(b, e) := decode_config config in
    match e with
    | Some _ =>
        mkRun (decode_calls config ++ [CallFatalln runtime_decode_failed e])
              (Exited runtime_decode_failed e)
    | None =>
        let '(cfg, e2) := Unmarshal_Runtime b zero_Runtime in
        match e2 with
        | Some _ =>
            mkRun (decode_calls config
                     ++ [CallUnmarshal b; CallFatalln runtime_parse_failed e2])
                  (Exited runtime_parse_failed e2)
        | None =>
            let '(u, e3) := Parse (APIBaseURL cfg) in
            match e3 with
            | Some _ =>
                mkRun (decode_calls config
                         ++ [CallUnmarshal b; CallParse (APIBaseURL cfg);
                             CallFatalln runtime_url_failed e3])
                      (Exited runtime_url_failed e3)
            | None =>
                mkRun (decode_calls config
                         ++ [CallUnmarshal b; CallParse (APIBaseURL cfg)])
                      (Returned (override cfg deployID))
            end
        end
    end.
Proof.
  unfold ParseRuntime, decode_config, decode_calls, override.
  destruct (String.eqb config ""); [reflexivity|].
  unfold StdEncoding_DecodeString, RawURLEncoding_DecodeString,
    json_Unmarshal_Runtime, url_Parse.
  destruct (base64.DecodeString base64.StdEncoding config) as [b1 [e1|]];
    [destruct (base64.DecodeString base64.RawURLEncoding config) as [b2 [e2|]]|];
    try reflexivity.
  all: cbn; destruct (Unmarshal_Runtime _ zero_Runtime) as [cfg [e3|]];
    try reflexivity.
  all: cbn; destruct (Parse (APIBaseURL cfg)) as [u [e4|]]; try reflexivity.
  all: cbn; destruct (String.eqb deployID ""); reflexivity.
Qed.

Lemma ParseStatic_cases (config : string) :
  ParseStatic config =
  if String.eqb config ""
  then mkRun [CallFatalln no_static_config None] (Exited no_static_config None)
  else
    let '(b, e) := base64.DecodeString base64.StdEncoding config in
    match e with
    | Some _ =>
        mkRun [CallStdDecodeString config; CallFatalln static_decode_failed e]
              (Exited static_decode_failed e)
    | None =>
        let '(cfg, e2) := Unmarshal_Static b zero_Static in
        match e2 with
        | Some _ =>
            mkRun [CallStdDecodeString config; CallUnmarshal b;
                   CallFatalln static_parse_failed e2]
                  (Exited static_parse_failed e2)
        | None =>
            mkRun [CallStdDecodeString config; CallUnmarshal b] (Returned cfg)
        end
    end.
Proof.
  unfold ParseStatic.
  destruct (String.eqb config ""); [reflexivity|].
  unfold StdEncoding_DecodeString, json_Unmarshal_Static.
  destruct (base64.DecodeString base64.StdEncoding config) as [b1 [e1|]];
    try reflexivity.
  cbn; destruct (Unmarshal_Static _ zero_Static) as [cfg [e3|]]; reflexivity.
Qed.

End Runs.

Lemma DecodeString_empty (enc : base64.Encoding) : base64.DecodeString enc "" = ([], None).
Proof. reflexivity. Qed.

Lemma StdEncoding_fails_nonempty (config : string) :
  snd (base64.DecodeString base64.StdEncoding config) <> None ->
  String.eqb config "" = false.
Proof.
  intros H. destruct (String.eqb_spec config "") as [->|]; [|reflexivity].
  rewrite DecodeString_empty in H. contradiction.
Qed.

Lemma in_decode_calls_RawURL (s config : string) :
  In (CallRawURLDecodeString s) (decode_calls config) ->
  s = config /\ snd (base64.DecodeString base64.StdEncoding config) <> None.
Proof.
  unfold decode_calls. intros [H|H]; [discriminate|].
  destruct (snd (base64.DecodeString base64.StdEncoding config)); [|contradiction].
  destruct H as [[= ->]|[]]. split; [reflexivity | discriminate].
Qed.

Section RunFacts.
Context {L : Library}.

(** The outcome of [ParseRuntime], stage by stage. *)
Lemma result_ParseRuntime (config deployID : string) :
  result (ParseRuntime config deployID) =
  if String.eqb config "" then Exited no_runtime_config None
  else
    match decode_config config with
    | (_, Some e) => Exited runtime_decode_failed (Some e)
    | (b, None) =>
        match Unmarshal_Runtime b zero_Runtime with
        | (_, Some e) => Exited runtime_parse_failed (Some e)
        | (cfg, None) =>
            match Parse (APIBaseURL cfg) with
            | (_, Some e) => Exited runtime_url_failed (Some e)
            | (_, None) => Returned (override cfg deployID)
            end
        end
    end.
Proof.
  rewrite ParseRuntime_cases.
  destruct (String.eqb config ""); [reflexivity|].
  destruct (decode_config config) as [b [e|]]; [reflexivity|].
  destruct (Unmarshal_Runtime b zero_Runtime) as [cfg [e|]]; [reflexivity|].
  destruct (Parse (APIBaseURL cfg)) as [u [e|]]; reflexivity.
Qed.

(** The outcome of [ParseStatic], stage by stage. *)
Lemma result_ParseStatic (config : string) :
  result (ParseStatic config) =
  if String.eqb config "" then Exited no_static_config None
  else
    match base64.DecodeString base64.StdEncoding config with
    | (_, Some e) => Exited static_decode_failed (Some e)
    | (b, None) =>
        match Unmarshal_Static b zero_Static with
        | (_, Some e) => Exited static_parse_failed (Some e)
        | (cfg, None) => Returned cfg
        end
    end.
Proof.
  rewrite ParseStatic_cases.
  destruct (String.eqb config ""); [reflexivity|].
  destruct (base64.DecodeString base64.StdEncoding config) as [b [e|]]; [reflexivity|].
  destruct (Unmarshal_Static b zero_Static) as [cfg [e|]]; reflexivity.
Qed.

(** The calls of [ParseRuntime] on a non-empty blob: those of the decoding
    policy, and then none to a base64 decoder. *)
Lemma calls_ParseRuntime (config deployID : string) :
  String.eqb config "" = false ->
  exists rest,
    calls (ParseRuntime config deployID) = decode_calls config ++ rest
    /\ forall s, ~ In (CallRawURLDecodeString s) rest.
Proof.
  intros Hne. rewrite ParseRuntime_cases, Hne.
  destruct (decode_config config) as [b [e|]].
  { eexists; split; [reflexivity|]. intros s [H|[]]. discriminate. }
  destruct (Unmarshal_Runtime b zero_Runtime) as [cfg [e|]].
  { eexists; split; [reflexivity|]. intros s [H|[H|[]]]; discriminate. }
  destruct (Parse (APIBaseURL cfg)) as [u [e|]].
  { eexists; split; [reflexivity|]. intros s [H|[H|[H|[]]]]; discriminate. }
  eexists; split; [reflexivity|]. intros s [H|[H|[]]]; discriminate.
Qed.

Lemma std_failure_attempts_fallback (config deployID : string) :
  snd (base64.DecodeString base64.StdEncoding config) <> None ->
  attempts_fallback config (ParseRuntime config deployID).
Proof.
  intros Hf. unfold attempts_fallback.
  destruct (calls_ParseRuntime config deployID (StdEncoding_fails_nonempty _ Hf))
    as (rest & -> & _).
  apply in_or_app. left. unfold decode_calls.
  destruct (snd (base64.DecodeString base64.StdEncoding config));
    [right; left; reflexivity | contradiction].
Qed.

Lemma returned_inv (config deployID : string) (r : Runtime Other) :
  result (ParseRuntime config deployID) = Returned r ->
  String.eqb config "" = false
  /\ snd (decode_config config) = None
  /\ snd (Unmarshal_Runtime (fst (decode_config config)) zero_Runtime) = None
  /\ snd (Parse (APIBaseURL (embedded config))) = None
  /\ r = override (embedded config) deployID.
Proof.
  rewrite result_ParseRuntime. unfold embedded.
  destruct (String.eqb config ""); [discriminate|].
  destruct (decode_config config) as [b [e|]]; [discriminate|]. cbn [fst snd].
  destruct (Unmarshal_Runtime b zero_Runtime) as [cfg [e|]]; [discriminate|].
  cbn [fst snd].
  destruct (Parse (APIBaseURL cfg)) as [u [e|]]; [discriminate|].
  intros [= <-]. repeat split; reflexivity.
Qed.

End RunFacts.


(** ** The claims of the specification *)

Section Claims.
Context {L : Library}.

(** C1. Whenever the standard decoding of [config] fails, [ParseRuntime]
    makes the fallback attempt with the URL-safe unpadded decoder; when
    the standard decoding succeeds, the URL-safe decoder is never called;
    and the run ends in the fatal exit of the decoding stage exactly when
    both attempts fail, the error reported being the one of the second
    attempt. *)
Theorem ParseRuntime_fallback_policy (config deployID : string) :
  let r := ParseRuntime config deployID in
  (snd (base64.DecodeString base64.StdEncoding config) <> None ->
   attempts_fallback config r)
  /\ (snd (base64.DecodeString base64.StdEncoding config) = None -> no_fallback r)
  /\ (forall err,
        result r = Exited runtime_decode_failed err <->
        snd (base64.DecodeString base64.StdEncoding config) <> None
        /\ err <> None
        /\ snd (base64.DecodeString base64.RawURLEncoding config) = err).
Proof.
  intros r. subst r. split; [|split].
  - apply std_failure_attempts_fallback.
  - intros Hok s Hin.
    destruct (String.eqb config "") eqn:Hne.
    + rewrite ParseRuntime_cases, Hne in Hin. destruct Hin as [H|[]]. discriminate.
    + destruct (calls_ParseRuntime config deployID Hne) as (rest & E & Hrest).
      rewrite E in Hin. apply in_app_or in Hin. destruct Hin as [Hin|Hin].
      * apply in_decode_calls_RawURL in Hin. destruct Hin as [_ Hin]. contradiction.
      * exact (Hrest s Hin).
  - intros err. rewrite result_ParseRuntime. unfold decode_config.
    destruct (String.eqb_spec config "") as [->|Hne].
    { rewrite DecodeString_empty. cbn. split; [discriminate|].
      intros [H _]. contradiction. }
    destruct (base64.DecodeString base64.StdEncoding config) as [b1 [e1|]]; cbn [snd].
    + destruct (base64.DecodeString base64.RawURLEncoding config) as [b2 [e2|]];
        cbn [snd].
      * split.
        -- intros [= <-]. repeat split; discriminate.
        -- intros (_ & _ & <-). reflexivity.
      * destruct (Unmarshal_Runtime b2 zero_Runtime) as [cfg [e3|]];
          [|destruct (Parse (APIBaseURL cfg)) as [u [e4|]]];
          (split; [discriminate | intros (_ & Hn & E); congruence]).
    + destruct (Unmarshal_Runtime b1 zero_Runtime) as [cfg [e3|]];
        [|destruct (Parse (APIBaseURL cfg)) as [u [e4|]]];
        (split; [discriminate | intros (H & _); contradiction]).
Qed.

(** C2. When [ParseRuntime] returns, a non-empty override is the
    [DeployID] of the result whatever the blob embeds, and with the empty
    override the [DeployID] of the result is the one decoded from the
    blob. *)
Theorem deploy_id_override (config deployID : string) (r : Runtime Other) :
  result (ParseRuntime config deployID) = Returned r ->
  (deployID <> "" -> DeployID r = deployID)
  /\ (deployID = "" -> DeployID r = DeployID (embedded config)).
Proof.
  intros H. apply returned_inv in H. destruct H as (_ & _ & _ & _ & ->).
  unfold override. split.
  - intros Hd. destruct (String.eqb_spec deployID ""); [contradiction | reflexivity].
  - intros ->. reflexivity.
Qed.

(** C3. On the empty blob both loaders call [log.Fatalln] with their
    message for a missing config, and nothing else: the process is
    terminated and no config is returned. *)
Theorem empty_blob_is_fatal (deployID : string) :
  ParseRuntime "" deployID
  = mkRun [CallFatalln no_runtime_config None] (Exited no_runtime_config None)
  /\ ParseStatic ""
     = mkRun [CallFatalln no_static_config None] (Exited no_static_config None).
Proof. split; reflexivity. Qed.

(** C4, as amended. The [APIBaseURL] of every [Runtime] that
    [ParseRuntime] returns is accepted by [url.Parse], and its [DeployID]
    is not empty when the override is not; nothing makes either field
    non-empty otherwise. *)
Theorem returned_url_parses (config deployID : string) (r : Runtime Other) :
  result (ParseRuntime config deployID) = Returned r ->
  snd (Parse (APIBaseURL r)) = None
  /\ (deployID <> "" -> DeployID r <> "").
Proof.
  intros H. apply returned_inv in H. destruct H as (_ & _ & _ & Hurl & ->).
  unfold override.
  destruct (String.eqb_spec deployID "") as [->|Hd]; cbn.
  - split; [exact Hurl | contradiction].
  - split; [exact Hurl | intros _; exact Hd].
Qed.

(** C5, as amended. Whenever [url.Parse] returns an error for the
    [APIBaseURL] of a non-empty blob that decodes and that [json.Unmarshal]
    accepts, the run ends in the fatal exit of the validation stage, with
    the error of [url.Parse]; no config is returned.  What [url.Parse]
    accepts is returned, whatever URL grammar says of it. *)
Theorem invalid_api_base_url_is_fatal (config deployID : string) (b : bytes)
    (cfg : Runtime Other) (u : option URL) (e : error) :
  config <> "" ->
  decode_config config = (b, None) ->
  Unmarshal_Runtime b zero_Runtime = (cfg, None) ->
  Parse (APIBaseURL cfg) = (u, Some e) ->
  result (ParseRuntime config deployID) = Exited runtime_url_failed (Some e)
  /\ In (CallFatalln runtime_url_failed (Some e)) (calls (ParseRuntime config deployID)).
Proof.
  intros Hne Hd Hj Hu. apply String.eqb_neq in Hne.
  rewrite ParseRuntime_cases, Hne, Hd, Hj, Hu. cbn [result calls]. split.
  - reflexivity.
  - apply in_or_app. right. right. right. left. reflexivity.
Qed.

(** C7. [ParseStatic] never calls the URL-safe decoder, and a blob that
    the standard decoding refuses ends the run in the fatal exit of the
    decoding stage with the error of the standard decoder whether or
    not the URL-safe unpadded decoding would accept it. *)
Theorem ParseStatic_standard_only (config : string) :
  no_fallback (ParseStatic config)
  /\ forall (b : bytes) (e : error),
       base64.DecodeString base64.StdEncoding config = (b, Some e) ->
       ParseStatic config
       = mkRun [CallStdDecodeString config;
                CallFatalln static_decode_failed (Some e)]
               (Exited static_decode_failed (Some e)).
Proof.
  split.
  - intros s. rewrite ParseStatic_cases.
    destruct (String.eqb config ""); [intros [H|[]]; discriminate|].
    destruct (base64.DecodeString base64.StdEncoding config) as [b [e|]].
    { intros [H|[H|[]]]; discriminate. }
    destruct (Unmarshal_Static b zero_Static) as [cfg [e|]].
    + intros [H|[H|[H|[]]]]; discriminate.
    + intros [H|[H|[]]]; discriminate.
  - intros b e H. rewrite ParseStatic_cases.
    destruct (String.eqb_spec config "") as [->|Hne].
    { rewrite DecodeString_empty in H. discriminate. }
    rewrite H. reflexivity.
Qed.

(** C9. A non-empty override changes [DeployID] and nothing else: the
    run with the empty override returns too, its result is the struct
    decoded from the blob, and the result with the override is that struct
    with [DeployID] replaced, so [APIBaseURL] and every other field are
    the same. *)
Theorem override_changes_DeployID_only (config deployID : string)
    (r : Runtime Other) :
  deployID <> "" ->
  result (ParseRuntime config deployID) = Returned r ->
  result (ParseRuntime config "") = Returned (embedded config)
  /\ r = set_DeployID (embedded config) deployID
  /\ APIBaseURL r = APIBaseURL (embedded config)
  /\ OtherFields r = OtherFields (embedded config).
Proof.
  intros Hd H. apply returned_inv in H.
  destruct H as (Hne & Hdec & Hj & Hu & ->).
  assert (override (embedded config) deployID = set_DeployID (embedded config) deployID)
    as ->.
  { unfold override. destruct (String.eqb_spec deployID ""); [contradiction|reflexivity]. }
  split; [|repeat split].
  rewrite result_ParseRuntime, Hne. unfold embedded in *.
  destruct (decode_config config) as [b [e|]]; [discriminate|]. cbn [fst] in *.
  destruct (Unmarshal_Runtime b zero_Runtime) as [cfg [e|]]; [discriminate|].
  cbn [fst] in *.
  destruct (Parse (APIBaseURL cfg)) as [u [e|]]; [discriminate|]. reflexivity.
Qed.


(** C6. A payload whose URL-safe unpadded encoding the standard decoder
    refuses is decoded by the fallback: the run on that encoding makes the
    fallback attempt, which yields the payload, and ends as the run on the
    standard encoding of the payload ends, under the same override; when
    [json.Unmarshal] and [url.Parse] accept the payload both runs return
    the same [Runtime]. *)
Theorem rawurl_blob_decodes_by_fallback (payload : bytes) (deployID : string) :
  snd (base64.DecodeString base64.StdEncoding (rawurl_blob payload)) <> None ->
  attempts_fallback (rawurl_blob payload) (ParseRuntime (rawurl_blob payload) deployID)
  /\ decode_config (rawurl_blob payload) = (payload, None)
  /\ result (ParseRuntime (rawurl_blob payload) deployID)
     = result (ParseRuntime (std_blob payload) deployID)
  /\ forall (cfg : Runtime Other) (u : option URL),
       Unmarshal_Runtime payload zero_Runtime = (cfg, None) ->
       Parse (APIBaseURL cfg) = (u, None) ->
       result (ParseRuntime (rawurl_blob payload) deployID)
       = Returned (override cfg deployID)
       /\ result (ParseRuntime (std_blob payload) deployID)
          = Returned (override cfg deployID).
Proof.
  intros Hf.
  assert (payload <> []) as Hp.
  { intros ->. apply Hf. reflexivity. }
  assert (decode_config (rawurl_blob payload) = (payload, None)) as Hraw.
  { unfold decode_config.
    destruct (base64.DecodeString base64.StdEncoding (rawurl_blob payload))
      as [b [e|]]; [|contradiction].
    apply RawURLEncoding_round_trip. }
  assert (decode_config (std_blob payload) = (payload, None)) as Hstd.
  { unfold decode_config. rewrite StdEncoding_round_trip. reflexivity. }
  assert (result (ParseRuntime (rawurl_blob payload) deployID)
          = result (ParseRuntime (std_blob payload) deployID)) as Heq.
  { rewrite !result_ParseRuntime, Hraw, Hstd.
    rewrite (proj2 (String.eqb_neq _ _) (rawurl_blob_nonempty payload Hp)).
    rewrite (proj2 (String.eqb_neq _ _) (std_blob_nonempty payload Hp)).
    reflexivity. }
  split; [|split; [exact Hraw|split; [exact Heq|]]].
  - apply std_failure_attempts_fallback, Hf.
  - intros cfg u Hj Hu. rewrite <- Heq.
    assert (result (ParseRuntime (rawurl_blob payload) deployID)
            = Returned (override cfg deployID)) as Hr.
    { rewrite result_ParseRuntime, Hraw, Hj, Hu.
      rewrite (proj2 (String.eqb_neq _ _) (rawurl_blob_nonempty payload Hp)).
      reflexivity. }
    split; exact Hr.
Qed.

End Claims.

(** C8. A non-empty payload that [json.Unmarshal] accepts (and, for the
    runtime config, whose [APIBaseURL] [url.Parse] accepts) comes back from
    its standard base64 encoding: [ParseRuntime] with the empty override
    returns the struct [json.Unmarshal] makes of the payload, and so does
    [ParseStatic].  With the reference library, the blob of the scenario
    yields [APIBaseURL] https://api.example.com and [DeployID] abc123. *)
Theorem std_blob_round_trip :
  (forall (L : Library) (payload : bytes) (cfg : Runtime Other) (u : option URL),
      payload <> [] ->
      Unmarshal_Runtime payload zero_Runtime = (cfg, None) ->
      Parse (APIBaseURL cfg) = (u, None) ->
      ParseRuntime (std_blob payload) ""
      = mkRun [CallStdDecodeString (std_blob payload); CallUnmarshal payload;
               CallParse (APIBaseURL cfg)]
              (Returned cfg))
  /\ (forall (L : Library) (payload : bytes) (cfg : Static),
        payload <> [] ->
        Unmarshal_Static payload zero_Static = (cfg, None) ->
        ParseStatic (std_blob payload)
        = mkRun [CallStdDecodeString (std_blob payload); CallUnmarshal payload]
                (Returned cfg))
  /\ std_blob Reference.scenario
     = "eyJBUElCYXNlVVJMIjoiaHR0cHM6Ly9hcGkuZXhhbXBsZS5jb20iLCJEZXBsb3lJRCI6ImFiYzEyMyJ9"
  /\ result (ParseRuntime (L := Reference.library) (std_blob Reference.scenario) "")
     = Returned (mkRuntime "https://api.example.com" "abc123" tt).
Proof.
  split; [|split; [|split]].
  - intros L payload cfg u Hp Hj Hu.
    rewrite ParseRuntime_cases.
    rewrite (proj2 (String.eqb_neq _ _) (std_blob_nonempty payload Hp)).
    unfold decode_config, decode_calls.
    rewrite StdEncoding_round_trip, Hj, Hu. reflexivity.
  - intros L payload cfg Hp Hj.
    rewrite ParseStatic_cases.
    rewrite (proj2 (String.eqb_neq _ _) (std_blob_nonempty payload Hp)).
    rewrite StdEncoding_round_trip, Hj. reflexivity.
  - vm_compute. reflexivity.
  - vm_compute. reflexivity.
Qed.

(** ** The claims at concrete blobs *)

Lemma ParseRuntime_fallback_policy_witness :
  attempts_fallback "e30" (ParseRuntime (L := Reference.library) "e30" "")
  /\ no_fallback (ParseRuntime (L := Reference.library) "e30=" "")
  /\ result (ParseRuntime (L := Reference.library) "e30=x" "")
     = Exited runtime_decode_failed (Some (CorruptInputError 3)).
Proof.
  split; [|split].
  - apply (proj1 (@ParseRuntime_fallback_policy Reference.library "e30" "")).
    vm_compute. discriminate.
  - apply (proj1 (proj2 (@ParseRuntime_fallback_policy Reference.library "e30=" ""))).
    vm_compute. reflexivity.
  - apply (proj2 (proj2 (@ParseRuntime_fallback_policy Reference.library "e30=x" ""))).
    vm_compute. repeat split; discriminate.
Defined.

Lemma deploy_id_override_witness :
  result (ParseRuntime (L := Reference.library) (std_blob Reference.scenario) "xyz789")
  = Returned (mkRuntime "https://api.example.com" "xyz789" tt)
  /\ DeployID (mkRuntime (Other := Reference.RuntimeOther)
                 "https://api.example.com" "xyz789" tt) = "xyz789".
Proof.
  assert (result (ParseRuntime (L := Reference.library) (std_blob Reference.scenario) "xyz789")
          = Returned (mkRuntime "https://api.example.com" "xyz789" tt)) as H
    by (vm_compute; reflexivity).
  split; [exact H|].
  apply (proj1 (@deploy_id_override Reference.library _ "xyz789" _ H)).
  discriminate.
Defined.

(** C4, counterexample. The blob e30= is the standard encoding of the empty
    JSON object: [ParseRuntime] returns, and both the API base URL and the
    deploy identifier of the result are empty. *)
Lemma returned_fields_may_be_empty :
  exists r : Runtime Reference.RuntimeOther,
    result (ParseRuntime (L := Reference.library) "e30=" "") = Returned r
    /\ APIBaseURL r = "" /\ DeployID r = "".
Proof. exists (mkRuntime "" "" tt). vm_compute. repeat split; reflexivity. Qed.

(** C5, counterexample. The API base URL of this blob holds a raw control
    character, after the number sign: [url.Parse] cuts the fragment off
    before it looks for control characters, accepts the URL, and
    [ParseRuntime] returns it. *)
Lemma control_character_in_fragment_is_returned :
  exists r : Runtime Reference.RuntimeOther,
    result (ParseRuntime (L := Reference.library)
              (std_blob Reference.control_character_in_fragment) "")
    = Returned r
    /\ APIBaseURL r = ("http://h/p#" ++ Reference.U0001)%string
    /\ url.stringContainsCTLByte (APIBaseURL r) = true.
Proof.
  exists (mkRuntime ("http://h/p#" ++ Reference.U0001)%string "abc123" tt).
  vm_compute. repeat split; reflexivity.
Qed.

Lemma returned_url_parses_witness :
  result (ParseRuntime (L := Reference.library) (std_blob Reference.scenario) "xyz789")
  = Returned (mkRuntime "https://api.example.com" "xyz789" tt)
  /\ snd (url.Parse "https://api.example.com") = None
  /\ "xyz789" <> "".
Proof.
  assert (result (ParseRuntime (L := Reference.library) (std_blob Reference.scenario) "xyz789")
          = Returned (mkRuntime "https://api.example.com" "xyz789" tt)) as H
    by (vm_compute; reflexivity).
  split; [exact H|].
  destruct (@returned_url_parses Reference.library _ "xyz789" _ H) as [Hu Hd].
  split; [exact Hu | apply Hd; discriminate].
Defined.

Lemma invalid_api_base_url_is_fatal_witness :
  result (ParseRuntime (L := Reference.library) (std_blob Reference.control_character) "")
  = Exited runtime_url_failed
      (Some (url_Error "parse" ("http://x/" ++ Reference.U0001)%string
               (errorString "net/url: invalid control character in URL"))).
Proof.
  apply (@invalid_api_base_url_is_fatal Reference.library
           (std_blob Reference.control_character) ""
           Reference.control_character
           (mkRuntime ("http://x/" ++ Reference.U0001)%string "abc123" tt) None).
  - vm_compute. discriminate.
  - vm_compute. reflexivity.
  - vm_compute. reflexivity.
  - vm_compute. reflexivity.
Defined.

Lemma rawurl_blob_decodes_by_fallback_witness :
  rawurl_blob (Reference.payload "{}") = "e30"
  /\ attempts_fallback "e30" (ParseRuntime (L := Reference.library) "e30" "xyz789")
  /\ result (ParseRuntime (L := Reference.library) "e30" "xyz789")
     = result (ParseRuntime (L := Reference.library) "e30=" "xyz789")
  /\ result (ParseRuntime (L := Reference.library) "e30" "xyz789")
     = Returned (mkRuntime "" "xyz789" tt).
Proof.
  split; [vm_compute; reflexivity|].
  assert (snd (base64.DecodeString base64.StdEncoding
                 (rawurl_blob (Reference.payload "{}"))) <> None) as Hf
    by (vm_compute; discriminate).
  destruct (@rawurl_blob_decodes_by_fallback Reference.library
              (Reference.payload "{}") "xyz789" Hf) as (Ha & _ & He & Hr).
  split; [exact Ha|]. split; [exact He|].
  exact (proj1 (Hr (mkRuntime "" "" tt) (Some tt) eq_refl eq_refl)).
Defined.

Lemma ParseStatic_standard_only_witness :
  base64.DecodeString base64.RawURLEncoding "e30" = (Reference.payload "{}", None)
  /\ ParseStatic (L := Reference.library) "e30"
     = mkRun [CallStdDecodeString "e30";
              CallFatalln static_decode_failed (Some (CorruptInputError 0))]
             (Exited static_decode_failed (Some (CorruptInputError 0))).
Proof.
  split; [vm_compute; reflexivity|].
  apply (proj2 (@ParseStatic_standard_only Reference.library "e30") []).
  vm_compute. reflexivity.
Defined.

Lemma std_blob_round_trip_witness :
  ParseRuntime (L := Reference.library) (std_blob Reference.scenario) ""
  = mkRun [CallStdDecodeString (std_blob Reference.scenario);
           CallUnmarshal Reference.scenario;
           CallParse "https://api.example.com"]
          (Returned (mkRuntime "https://api.example.com" "abc123" tt))
  /\ ParseStatic (L := Reference.library) (std_blob Reference.scenario)
     = mkRun [CallStdDecodeString (std_blob Reference.scenario);
              CallUnmarshal Reference.scenario]
             (Returned [("APIBaseURL", json.Str "https://api.example.com");
                        ("DeployID", json.Str "abc123")]).
Proof.
  split.
  - apply (proj1 std_blob_round_trip Reference.library Reference.scenario
             (mkRuntime "https://api.example.com" "abc123" tt) (Some tt)).
    + vm_compute. discriminate.
    + vm_compute. reflexivity.
    + vm_compute. reflexivity.
  - apply (proj1 (proj2 std_blob_round_trip) Reference.library Reference.scenario).
    + vm_compute. discriminate.
    + vm_compute. reflexivity.
Defined.

Lemma override_changes_DeployID_only_witness :
  result (ParseRuntime (L := Reference.library) (std_blob Reference.scenario) "")
  = Returned (mkRuntime "https://api.example.com" "abc123" tt)
  /\ result (ParseRuntime (L := Reference.library) (std_blob Reference.scenario) "xyz789")
     = Returned (mkRuntime "https://api.example.com" "xyz789" tt).
Proof.
  assert (result (ParseRuntime (L := Reference.library) (std_blob Reference.scenario) "xyz789")
          = Returned (mkRuntime "https://api.example.com" "xyz789" tt)) as H
    by (vm_compute; reflexivity).
  split; [|exact H].
  assert ("xyz789" <> "") as Hd by discriminate.
  destruct (@override_changes_DeployID_only Reference.library _ "xyz789" _ Hd H)
    as (H0 & _).
  rewrite H0. vm_compute. reflexivity.
Defined.


(** * Further properties of the loaders *)

(** ** base64: the two decoders side by side *)

Lemma bytes_of_string_app (a b : string) :
  bytes_of_string (a ++ b)%string = bytes_of_string a ++ bytes_of_string b.
Proof.
  unfold bytes_of_string, list_byte_of_string.
  induction a as [|c a IH]; cbn; [reflexivity|]. f_equal. exact IH.
Qed.

Lemma alphabets_agree (c : byte) : alphabets_agree_at c = true.
Proof. destruct c; vm_compute; reflexivity. Qed.

Lemma is_pad_RawURLEncoding (c : byte) : base64.is_pad base64.RawURLEncoding c = false.
Proof. reflexivity. Qed.

(** Where both decoders accept an input they decode it to the same bytes. *)
Lemma decoders_agree (src : bytes) :
  forall (len si : Z) (j : nat) (d : base64.dbuf) (dst bs br : bytes),
    base64.decode_from base64.StdEncoding len src si j d dst = (bs, None) ->
    base64.decode_from base64.RawURLEncoding len src si j d dst = (br, None) ->
    bs = br.
Proof.
  induction src as [|c src IH]; intros len si j d dst bs br Hs Hr.
  - destruct j as [|[|j]]; cbn in Hs, Hr; congruence.
  - cbn [base64.decode_from] in Hs, Hr.
    rewrite is_pad_RawURLEncoding in Hr.
    pose proof (alphabets_agree c) as A. unfold alphabets_agree_at in A.
    cbn zeta in A.
    destruct (base64.decodeMap base64.StdEncoding c =? 255) eqn:Es;
      destruct (base64.decodeMap base64.RawURLEncoding c =? 255) eqn:Er;
      destruct (base64.is_newline c) eqn:En;
      destruct (base64.is_pad base64.StdEncoding c) eqn:Ep;
      destruct (base64.decodeMap base64.StdEncoding c
                =? base64.decodeMap base64.RawURLEncoding c) eqn:Esr;
      cbn [negb andb orb] in Hs, Hr, A;
      try discriminate;
      try (eapply IH; eassumption);
      apply Z.eqb_eq in Esr; rewrite Esr in Es; try congruence;
      rewrite Esr in Hs;
      destruct j as [|[|[|[|j]]]]; eapply IH; eassumption.
Qed.

(** The URL-safe unpadded decoder stops at a padding character, wherever it
    stands. *)
Lemma RawURLEncoding_stops_at_padding (src : bytes) :
  In "="%byte src ->
  forall (len si : Z) (j : nat) (d : base64.dbuf) (dst : bytes),
    snd (base64.decode_from base64.RawURLEncoding len src si j d dst) <> None.
Proof.
  induction src as [|c src IH]; intros Hin len si j d dst; [contradiction|].
  cbn [base64.decode_from]. rewrite is_pad_RawURLEncoding.
  destruct Hin as [->|Hin].
  - change (base64.decodeMap base64.RawURLEncoding "="%byte) with 255.
    cbn. discriminate.
  - destruct (negb (base64.decodeMap base64.RawURLEncoding c =? 255)).
    + destruct j as [|[|[|[|j]]]]; apply IH; assumption.
    + destruct (base64.is_newline c); [apply IH; assumption | cbn; discriminate].
Qed.

Section TrailingLineBreaks.
Import base64.

Variable enc : Encoding.

Hypothesis alphabet :
  forall v, 0 <= v < 64 -> decodeMap enc (encode_at enc v) = v.
Hypothesis padding :
  forall p, padChar enc = Some p -> decodeMap enc p = 255 /\ is_newline p = false.
Hypothesis line_breaks :
  forall c, is_newline c = true -> decodeMap enc c = 255.

Variable nl : bytes.
Hypothesis nl_line_breaks : forallb is_newline nl = true.

Lemma skip_newlines_all (si : Z) : exists si', skip_newlines nl si = ([], si').
Proof.
  revert si. induction nl as [|c l IH]; intros si; [eexists; reflexivity|].
  cbn in nl_line_breaks. apply andb_prop in nl_line_breaks.
  destruct nl_line_breaks as [Hc Hl]. cbn [skip_newlines]. rewrite Hc.
  apply IH, Hl.
Qed.

Lemma decode_from_line_breaks_0 (len si : Z) (d : dbuf) (dst : bytes) :
  decode_from enc len nl si 0 d dst = (dst, None).
Proof.
  revert si. induction nl as [|c l IH]; intros si; [reflexivity|].
  cbn in nl_line_breaks. apply andb_prop in nl_line_breaks.
  destruct nl_line_breaks as [Hc Hl]. cbn [decode_from].
  rewrite (line_breaks c Hc), Hc. cbn. apply IH, Hl.
Qed.

Lemma decode_from_line_breaks_unpadded (len si : Z) (j : nat) (d : dbuf) (dst : bytes) :
  padChar enc = None -> (2 <= j)%nat ->
  decode_from enc len nl si j d dst = (dst ++ quantum_bytes d j, None).
Proof.
  intros Hp Hj. revert si. induction nl as [|c l IH]; intros si.
  - destruct j as [|[|j]]; try lia. cbn. unfold has_padding. rewrite Hp. reflexivity.
  - cbn in nl_line_breaks. apply andb_prop in nl_line_breaks.
    destruct nl_line_breaks as [Hc Hl]. cbn [decode_from].
    rewrite (line_breaks c Hc), Hc. cbn. apply IH, Hl.
Qed.

Lemma decode_from_pad_line_breaks (len si : Z) (j : nat) (d : dbuf) (dst : bytes) :
  (2 <= j <= 3)%nat ->
  decode_from enc len (pad enc (4 - j) ++ nl) si j d dst
  = (dst ++ quantum_bytes d j, None).
Proof.
  intros Hj. unfold pad.
  destruct (padChar enc) as [p|] eqn:Ep.
  - destruct (padding p eq_refl) as [Hmap Hnl].
    assert (is_pad enc p = true) as Hpad.
    { unfold is_pad. rewrite Ep. apply Byte.byte_dec_lb. reflexivity. }
    destruct j as [|[|[|[|j]]]]; try lia.
    + cbn [Nat.sub repeat app decode_from skip_newlines].
      rewrite Hmap, Hnl, Hpad. cbn [negb Z.eqb Pos.eqb].
      destruct (skip_newlines_all (si + 1 + 1)) as [si' ->]. reflexivity.
    + cbn [Nat.sub repeat app decode_from skip_newlines].
      rewrite Hmap, Hnl, Hpad. cbn [negb Z.eqb Pos.eqb].
      destruct (skip_newlines_all (si + 1)) as [si' ->]. reflexivity.
  - cbn [app]. apply decode_from_line_breaks_unpadded; [exact Ep | lia].
Qed.

Lemma decode_from_Encode_line_breaks (p : bytes) :
  forall (len si : Z) (dst : bytes),
    decode_from enc len (Encode enc p ++ nl) si 0 (0, 0, 0, 0) dst = (dst ++ p, None).
Proof.
  induction p as [|b0|b0 b1|b0 b1 b2 p IH] using list_ind3; intros len si dst.
  - cbn [Encode app]. rewrite app_nil_r. apply decode_from_line_breaks_0.
  - cbn [Encode app].
    rewrite !(decode_from_symbol enc alphabet) by apply sextet_range.
    cbn [dbuf_set].
    rewrite (decode_from_pad_line_breaks len _ 2) by lia.
    rewrite quantum_bytes_2. reflexivity.
  - cbn [Encode app].
    rewrite !(decode_from_symbol enc alphabet) by apply sextet_range.
    cbn [dbuf_set].
    rewrite (decode_from_pad_line_breaks len _ 3) by lia.
    rewrite quantum_bytes_3. reflexivity.
  - cbn [Encode app].
    rewrite !(decode_from_symbol enc alphabet) by apply sextet_range.
    cbn [dbuf_set].
    rewrite quantum_bytes_4, IH, <- app_assoc. reflexivity.
Qed.

End TrailingLineBreaks.

Lemma line_breaks_StdEncoding (c : byte) :
  base64.is_newline c = true -> base64.decodeMap base64.StdEncoding c = 255.
Proof. destruct c; vm_compute; intros H; first [reflexivity | discriminate H]. Qed.

Lemma line_breaks_RawURLEncoding (c : byte) :
  base64.is_newline c = true -> base64.decodeMap base64.RawURLEncoding c = 255.
Proof. destruct c; vm_compute; intros H; first [reflexivity | discriminate H]. Qed.

Lemma StdEncoding_trailing_line_breaks (payload : bytes) (nl : string) :
  only_line_breaks nl = true ->
  base64.DecodeString base64.StdEncoding (std_blob payload ++ nl)%string
  = (payload, None).
Proof.
  intros Hnl. unfold base64.DecodeString, base64.Decode, std_blob, base64.EncodeToString.
  rewrite bytes_of_string_app. unfold bytes_of_string at 2, string_of_bytes.
  rewrite list_byte_of_string_of_list_byte.
  apply (decode_from_Encode_line_breaks base64.StdEncoding alphabet_StdEncoding).
  - intros p [= <-]. vm_compute. split; reflexivity.
  - apply line_breaks_StdEncoding.
  - exact Hnl.
Qed.

Lemma RawURLEncoding_trailing_line_breaks (payload : bytes) (nl : string) :
  only_line_breaks nl = true ->
  base64.DecodeString base64.RawURLEncoding (rawurl_blob payload ++ nl)%string
  = (payload, None).
Proof.
  intros Hnl.
  unfold base64.DecodeString, base64.Decode, rawurl_blob, base64.EncodeToString.
  rewrite bytes_of_string_app. unfold bytes_of_string at 2, string_of_bytes.
  rewrite list_byte_of_string_of_list_byte.
  apply (decode_from_Encode_line_breaks base64.RawURLEncoding alphabet_RawURLEncoding).
  - intros p [=].
  - apply line_breaks_RawURLEncoding.
  - exact Hnl.
Qed.

(** A blob the URL-safe unpadded decoder accepts is decoded by the policy of
    [ParseRuntime] to the bytes this decoder yields, also when the standard
    decoder accepts the blob. *)
Lemma decode_config_legacy (config : string) (b : bytes) :
  base64.DecodeString base64.RawURLEncoding config = (b, None) ->
  decode_config config = (b, None).
Proof.
  intros Hr. unfold decode_config.
  destruct (base64.DecodeString base64.StdEncoding config) as [b' [e|]] eqn:Hs;
    [exact Hr|].
  f_equal. unfold base64.DecodeString, base64.Decode in Hs, Hr.
  exact (decoders_agree _ _ _ _ _ _ _ _ Hs Hr).
Qed.

Lemma append_nonempty (a b : string) : a <> "" -> String.eqb (a ++ b) "" = false.
Proof. destruct a; [congruence | reflexivity]. Qed.

Lemma decode_config_std_blob (payload : bytes) :
  decode_config (std_blob payload) = (payload, None).
Proof. unfold decode_config. rewrite StdEncoding_round_trip. reflexivity. Qed.

Lemma decode_config_failed (config : string) (b : bytes) (e : error) :
  decode_config config = (b, Some e) ->
  snd (base64.DecodeString base64.StdEncoding config) <> None
  /\ snd (base64.DecodeString base64.RawURLEncoding config) = Some e.
Proof.
  unfold decode_config.
  destruct (base64.DecodeString base64.StdEncoding config) as [b1 [e1|]];
    [|discriminate].
  intros ->. split; [discriminate | reflexivity].
Qed.

(** ** What the code shows beyond the claims *)

Section Extras.
Context {L : Library}.

(** X1. A non-empty blob that decodes but that [json.Unmarshal] refuses ends
    the run of [ParseRuntime] in the fatal exit of the parsing stage, with
    the error of [json.Unmarshal]; [url.Parse] is not called. *)
Theorem ParseRuntime_parse_failure_is_fatal (config deployID : string) (b : bytes)
    (cfg : Runtime Other) (e : error) :
  config <> "" ->
  decode_config config = (b, None) ->
  Unmarshal_Runtime b zero_Runtime = (cfg, Some e) ->
  result (ParseRuntime config deployID) = Exited runtime_parse_failed (Some e)
  /\ no_validation (ParseRuntime config deployID).
Proof.
  intros Hne Hd Hj. apply String.eqb_neq in Hne.
  rewrite ParseRuntime_cases, Hne, Hd, Hj. cbn [result calls].
  split; [reflexivity|].
  intros s Hin. apply in_app_or in Hin. destruct Hin as [Hin|[H|[H|[]]]];
    try discriminate.
  unfold decode_calls in Hin. destruct Hin as [H|Hin]; [discriminate|].
  destruct (snd (base64.DecodeString base64.StdEncoding config));
    [destruct Hin as [H|[]]; discriminate | contradiction].
Qed.

(** X2. A non-empty blob that the standard decoder accepts but that
    [json.Unmarshal] refuses ends the run of [ParseStatic] in the fatal exit
    of the parsing stage, with the error of [json.Unmarshal]. *)
Theorem ParseStatic_parse_failure_is_fatal (config : string) (b : bytes)
    (cfg : Static) (e : error) :
  config <> "" ->
  base64.DecodeString base64.StdEncoding config = (b, None) ->
  Unmarshal_Static b zero_Static = (cfg, Some e) ->
  ParseStatic config
  = mkRun [CallStdDecodeString config; CallUnmarshal b;
           CallFatalln static_parse_failed (Some e)]
          (Exited static_parse_failed (Some e)).
Proof.
  intros Hne Hd Hj. apply String.eqb_neq in Hne.
  rewrite ParseStatic_cases, Hne, Hd, Hj. reflexivity.
Qed.

(** X3. [ParseRuntime] returns exactly when the blob is not empty, one of
    the two decoders accepts it, [json.Unmarshal] accepts the decoded bytes
    and [url.Parse] accepts the decoded [APIBaseURL]; what it returns is the
    decoded struct under the override policy. *)
Theorem ParseRuntime_returns_iff (config deployID : string) (r : Runtime Other) :
  result (ParseRuntime config deployID) = Returned r <->
  config <> ""
  /\ snd (decode_config config) = None
  /\ snd (Unmarshal_Runtime (fst (decode_config config)) zero_Runtime) = None
  /\ snd (Parse (APIBaseURL (embedded config))) = None
  /\ r = override (embedded config) deployID.
Proof.
  split.
  - intros H. apply returned_inv in H. destruct H as (Hne & H).
    split; [apply String.eqb_neq, Hne | exact H].
  - intros (Hne & Hd & Hj & Hu & ->). apply String.eqb_neq in Hne.
    rewrite result_ParseRuntime, Hne. unfold embedded in *.
    destruct (decode_config config) as [b [e|]]; [discriminate|]. cbn [fst] in *.
    destruct (Unmarshal_Runtime b zero_Runtime) as [cfg [e|]]; [discriminate|].
    cbn [fst] in *.
    destruct (Parse (APIBaseURL cfg)) as [u [e|]]; [discriminate|]. reflexivity.
Qed.

(** X4. [ParseStatic] validates nothing after parsing: it never calls
    [url.Parse], and it returns exactly when the blob is not empty, the
    standard decoder accepts it and [json.Unmarshal] accepts the decoded
    bytes, the result being the struct [json.Unmarshal] leaves. *)
Theorem ParseStatic_returns_iff (config : string) (cfg : Static) :
  no_validation (ParseStatic config)
  /\ (result (ParseStatic config) = Returned cfg <->
      config <> ""
      /\ exists b, base64.DecodeString base64.StdEncoding config = (b, None)
                   /\ Unmarshal_Static b zero_Static = (cfg, None)).
Proof.
  split.
  - intros s. rewrite ParseStatic_cases.
    destruct (String.eqb config ""); [intros [H|[]]; discriminate|].
    destruct (base64.DecodeString base64.StdEncoding config) as [b [e|]].
    { intros [H|[H|[]]]; discriminate. }
    destruct (Unmarshal_Static b zero_Static) as [c [e|]].
    + intros [H|[H|[H|[]]]]; discriminate.
    + intros [H|[H|[]]]; discriminate.
  - rewrite result_ParseStatic. split.
    + destruct (String.eqb_spec config "") as [->|Hne]; [discriminate|].
      destruct (base64.DecodeString base64.StdEncoding config) as [b [e|]];
        [discriminate|].
      destruct (Unmarshal_Static b zero_Static) as [c [e|]] eqn:Hj; [discriminate|].
      intros [= <-]. split; [exact Hne|]. exists b. split; [reflexivity | exact Hj].
    + intros (Hne & b & Hd & Hj). apply String.eqb_neq in Hne.
      rewrite Hne, Hd, Hj. reflexivity.
Qed.

(** X5. The override takes no part in decoding, parsing or validation: two
    runs of [ParseRuntime] on one blob under any two overrides make the same
    calls, and if one is terminated so is the other, with the same message
    and error. *)
Theorem override_takes_no_part_in_validation (config deployID1 deployID2 : string) :
  calls (ParseRuntime config deployID1) = calls (ParseRuntime config deployID2)
  /\ forall msg err,
       result (ParseRuntime config deployID1) = Exited msg err <->
       result (ParseRuntime config deployID2) = Exited msg err.
Proof.
  rewrite !ParseRuntime_cases.
  destruct (String.eqb config ""); [split; [reflexivity | intros; reflexivity]|].
  destruct (decode_config config) as [b [e|]];
    [split; [reflexivity | intros; reflexivity]|].
  destruct (Unmarshal_Runtime b zero_Runtime) as [cfg [e|]];
    [split; [reflexivity | intros; reflexivity]|].
  destruct (Parse (APIBaseURL cfg)) as [u [e|]];
    [split; [reflexivity | intros; reflexivity]|].
  cbn [calls result]. split; [reflexivity|].
  intros msg err. split; discriminate.
Qed.

(** X6. Legacy blobs, without condition: for every non-empty payload the
    run of [ParseRuntime] on its URL-safe unpadded encoding ends as the run
    on its standard encoding, whether the standard decoder refuses the
    legacy blob or not. *)
Theorem legacy_blob_same_as_std (payload : bytes) (deployID : string) :
  payload <> [] ->
  decode_config (rawurl_blob payload) = (payload, None)
  /\ result (ParseRuntime (rawurl_blob payload) deployID)
     = result (ParseRuntime (std_blob payload) deployID).
Proof.
  intros Hp.
  assert (decode_config (rawurl_blob payload) = (payload, None)) as Hraw
    by apply decode_config_legacy, RawURLEncoding_round_trip.
  split; [exact Hraw|].
  rewrite !result_ParseRuntime, Hraw, decode_config_std_blob.
  rewrite (proj2 (String.eqb_neq _ _) (rawurl_blob_nonempty payload Hp)).
  rewrite (proj2 (String.eqb_neq _ _) (std_blob_nonempty payload Hp)).
  reflexivity.
Qed.

(** X7. Line breaks after a blob are ignored: for a non-empty payload,
    [ParseRuntime] on its standard or its URL-safe unpadded encoding
    followed by carriage returns and line feeds, and [ParseStatic] on its
    standard encoding followed by them, end as on the standard encoding
    alone. *)
Theorem trailing_line_breaks_are_ignored (payload : bytes) (nl deployID : string) :
  payload <> [] ->
  only_line_breaks nl = true ->
  result (ParseRuntime (std_blob payload ++ nl) deployID)
  = result (ParseRuntime (std_blob payload) deployID)
  /\ result (ParseRuntime (rawurl_blob payload ++ nl) deployID)
     = result (ParseRuntime (std_blob payload) deployID)
  /\ result (ParseStatic (std_blob payload ++ nl))
     = result (ParseStatic (std_blob payload)).
Proof.
  intros Hp Hnl.
  pose proof (std_blob_nonempty payload Hp) as Hs.
  pose proof (rawurl_blob_nonempty payload Hp) as Hr.
  assert (decode_config (std_blob payload ++ nl) = (payload, None)) as H1.
  { unfold decode_config. rewrite (StdEncoding_trailing_line_breaks _ _ Hnl).
    reflexivity. }
  assert (decode_config (rawurl_blob payload ++ nl) = (payload, None)) as H2
    by apply decode_config_legacy, RawURLEncoding_trailing_line_breaks, Hnl.
  rewrite !result_ParseRuntime, !result_ParseStatic.
  rewrite H1, H2, decode_config_std_blob.
  rewrite (StdEncoding_trailing_line_breaks _ _ Hnl), StdEncoding_round_trip.
  rewrite (append_nonempty _ nl Hs), (append_nonempty _ nl Hr).
  rewrite (proj2 (String.eqb_neq _ _) Hs).
  repeat split; reflexivity.
Qed.

(** X8. Whatever the URL-safe unpadded decoder accepts means under
    [ParseRuntime] what it means to that decoder: the bytes handed to
    [json.Unmarshal] are the ones this decoder yields, also when the
    standard decoder is the one that decoded the blob. *)
Theorem legacy_decoder_decides_the_bytes (config deployID : string) (b : bytes) :
  config <> "" ->
  base64.DecodeString base64.RawURLEncoding config = (b, None) ->
  decode_config config = (b, None)
  /\ In (CallUnmarshal b) (calls (ParseRuntime config deployID)).
Proof.
  intros Hne Hr. apply String.eqb_neq in Hne.
  pose proof (decode_config_legacy config b Hr) as Hd.
  split; [exact Hd|].
  rewrite ParseRuntime_cases, Hne, Hd.
  destruct (Unmarshal_Runtime b zero_Runtime) as [cfg [e|]];
    [|destruct (Parse (APIBaseURL cfg)) as [u [e|]]];
    cbn [calls]; apply in_or_app; right; left; reflexivity.
Qed.

(** X9. The fallback does not rescue a padded blob: when the standard
    decoder refuses a blob in which the padding character occurs, the
    URL-safe unpadded decoder refuses it too and [ParseRuntime] ends in the
    fatal exit of the decoding stage with the error of that second
    decoder. *)
Theorem padded_blob_is_not_rescued (config deployID : string) :
  occurs_in "="%byte config ->
  snd (base64.DecodeString base64.StdEncoding config) <> None ->
  exists e,
    snd (base64.DecodeString base64.RawURLEncoding config) = Some e
    /\ result (ParseRuntime config deployID) = Exited runtime_decode_failed (Some e).
Proof.
  intros Hin Hs.
  pose proof (RawURLEncoding_stops_at_padding _ Hin
                (Z.of_nat (List.length (bytes_of_string config))) 0 0%nat
                (0, 0, 0, 0) []) as Hr.
  fold (base64.Decode base64.RawURLEncoding (bytes_of_string config)) in Hr.
  fold (base64.DecodeString base64.RawURLEncoding config) in Hr.
  rewrite result_ParseRuntime, (StdEncoding_fails_nonempty _ Hs).
  unfold decode_config.
  destruct (base64.DecodeString base64.StdEncoding config) as [b1 [e1|]];
    [|contradiction].
  destruct (base64.DecodeString base64.RawURLEncoding config) as [b2 [e2|]];
    [|contradiction].
  exists e2. split; reflexivity.
Qed.

(** X10. The message of a fatal exit of [ParseRuntime] tells the stage that
    failed: the missing-config message comes with no error and only for the
    empty blob; each other message comes with the error of the library call
    of its stage, the earlier stages having passed. *)
Theorem exit_message_tells_the_stage (config deployID msg : string)
    (err : option error) :
  result (ParseRuntime config deployID) = Exited msg err ->
  (msg = no_runtime_config /\ err = None /\ config = "")
  \/ (msg = runtime_decode_failed /\ err <> None
      /\ snd (base64.DecodeString base64.StdEncoding config) <> None
      /\ snd (base64.DecodeString base64.RawURLEncoding config) = err)
  \/ (msg = runtime_parse_failed /\ err <> None
      /\ snd (decode_config config) = None
      /\ snd (Unmarshal_Runtime (fst (decode_config config)) zero_Runtime) = err)
  \/ (msg = runtime_url_failed /\ err <> None
      /\ snd (decode_config config) = None
      /\ snd (Unmarshal_Runtime (fst (decode_config config)) zero_Runtime) = None
      /\ snd (Parse (APIBaseURL (embedded config))) = err).
Proof.
  rewrite result_ParseRuntime. unfold embedded.
  destruct (String.eqb_spec config "") as [->|Hne].
  { intros [= <- <-]. left. repeat split. }
  destruct (decode_config config) as [b [e|]] eqn:Hd.
  { intros [= <- <-]. right. left. apply decode_config_failed in Hd.
    destruct Hd as [Hs Hr]. repeat split; [discriminate | exact Hs | exact Hr]. }
  cbn [fst snd].
  destruct (Unmarshal_Runtime b zero_Runtime) as [cfg [e|]].
  { intros [= <- <-]. right. right. left. repeat split. discriminate. }
  cbn [fst snd].
  destruct (Parse (APIBaseURL cfg)) as [u [e|]]; [|discriminate].
  intros [= <- <-]. right. right. right. repeat split. discriminate.
Qed.

End Extras.

(** ** base64: line breaks anywhere *)

Section LineBreaksAnywhere.
Import base64.

Variable enc : Encoding.
Hypothesis line_breaks :
  forall c, is_newline c = true -> decodeMap enc c = 255.

Lemma skip_newlines_drop (l : bytes) (si : Z) :
  drop_line_breaks (fst (skip_newlines l si)) = drop_line_breaks l
  /\ match fst (skip_newlines l si) with
     | [] => True
     | c :: _ => is_newline c = false
     end.
Proof.
  revert si. induction l as [|c l IH]; intros si; [cbn; split; reflexivity|].
  cbn [skip_newlines]. destruct (is_newline c) eqn:Ec.
  - destruct (IH (si + 1)) as [H1 H2]. split; [|exact H2].
    rewrite H1. unfold drop_line_breaks. cbn [filter]. rewrite Ec. reflexivity.
  - cbn [fst]. split; [reflexivity | exact Ec].
Qed.

Lemma skip_newlines_dropped (l : bytes) (si : Z) :
  skip_newlines (drop_line_breaks l) si = (drop_line_breaks l, si).
Proof.
  assert (Forall (fun c => is_newline c = false) (drop_line_breaks l)) as H.
  { apply Forall_forall. intros c Hc. apply filter_In in Hc.
    destruct Hc as [_ Hc]. apply negb_true_iff in Hc. exact Hc. }
  destruct (drop_line_breaks l) as [|c t]; [reflexivity|].
  inversion H as [|? ? Hc _]; subst. cbn [skip_newlines]. rewrite Hc. reflexivity.
Qed.

Lemma drop_line_breaks_cons (c : byte) (l : bytes) :
  is_newline c = false -> drop_line_breaks (c :: l) = c :: drop_line_breaks l.
Proof. intros H. unfold drop_line_breaks. cbn [filter]. rewrite H. reflexivity. Qed.

(** What follows the padding: only line breaks may. *)
Lemma trailing_garbage_drop (l : bytes) (si si' : Z) (out : bytes) :
  same_decoding
    (let '(src4, si4) := skip_newlines l si in
     match src4 with
     | [] => (out, None)
     | _ :: _ => (out, Some (CorruptInputError si4))
     end)
    (let '(src4, si4) := skip_newlines (drop_line_breaks l) si' in
     match src4 with
     | [] => (out, None)
     | _ :: _ => (out, Some (CorruptInputError si4))
     end).
Proof.
  rewrite skip_newlines_dropped.
  destruct (skip_newlines_drop l si) as [H1 H2].
  destruct (skip_newlines l si) as [src4 si4]. cbn [fst] in H1, H2.
  rewrite <- H1. destruct src4 as [|c4 src4]; [exact eq_refl|].
  rewrite (drop_line_breaks_cons _ _ H2). exact I.
Qed.

Lemma decode_from_drop (src : bytes) :
  forall (len len' si si' : Z) (j : nat) (d : dbuf) (dst : bytes),
    same_decoding (decode_from enc len src si j d dst)
                  (decode_from enc len' (drop_line_breaks src) si' j d dst).
Proof.
  induction src as [|c src IH]; intros len len' si si' j d dst.
  - cbn. destruct j as [|[|j]]; [exact eq_refl | exact I |].
    destruct (has_padding enc); [exact I | exact eq_refl].
  - destruct (is_newline c) eqn:Ec.
    + assert (drop_line_breaks (c :: src) = drop_line_breaks src) as ->.
      { unfold drop_line_breaks. cbn [filter]. rewrite Ec. reflexivity. }
      cbn [decode_from]. rewrite (line_breaks c Ec), Ec.
      cbn [Z.eqb Pos.eqb negb]. apply IH.
    + rewrite (drop_line_breaks_cons _ _ Ec). cbn [decode_from]. rewrite Ec.
      destruct (negb (decodeMap enc c =? 255)).
      { destruct j as [|[|[|[|j]]]]; apply IH. }
      destruct (is_pad enc c); cbn [negb]; [|exact I].
      destruct j as [|[|[|j]]]; [exact I | exact I | |].
      * (* the first of two padding characters *)
        rewrite skip_newlines_dropped.
        destruct (skip_newlines_drop src (si + 1)) as [H1 H2].
        destruct (skip_newlines src (si + 1)) as [src2 si2]. cbn [fst] in H1, H2.
        rewrite <- H1. destruct src2 as [|c2 src3]; [exact I|].
        rewrite (drop_line_breaks_cons _ _ H2).
        destruct (is_pad enc c2); cbn [negb]; [|exact I].
        apply trailing_garbage_drop.
      * apply trailing_garbage_drop.
Qed.

Lemma DecodeString_strip_line_breaks (s : string) :
  same_decoding (DecodeString enc s) (DecodeString enc (strip_line_breaks s)).
Proof.
  unfold DecodeString, Decode, strip_line_breaks, bytes_of_string, string_of_bytes.
  rewrite !list_byte_of_string_of_list_byte. apply decode_from_drop.
Qed.

End LineBreaksAnywhere.

Lemma decode_config_strip_line_breaks (config : string) :
  same_decoding (decode_config config) (decode_config (strip_line_breaks config)).
Proof.
  unfold decode_config.
  pose proof (DecodeString_strip_line_breaks base64.StdEncoding
                line_breaks_StdEncoding config) as Hs.
  pose proof (DecodeString_strip_line_breaks base64.RawURLEncoding
                line_breaks_RawURLEncoding config) as Hr.
  unfold same_decoding in *.
  destruct (base64.DecodeString base64.StdEncoding config) as [b1 [e1|]];
    destruct (base64.DecodeString base64.StdEncoding (strip_line_breaks config))
      as [b1' [e1'|]]; cbn [fst snd] in *; try contradiction;
    [exact Hr | exact Hs].
Qed.

Lemma strip_line_breaks_nonempty (config : string) :
  strip_line_breaks config <> "" -> String.eqb config "" = false.
Proof.
  intros H. destruct (String.eqb_spec config "") as [->|]; [|reflexivity].
  exfalso. apply H. reflexivity.
Qed.

(** The only error of the decoders is [CorruptInputError]. *)
Lemma decode_from_error (enc : base64.Encoding) (src : bytes) :
  forall (len si : Z) (j : nat) (d : base64.dbuf) (dst : bytes) (e : error),
    snd (base64.decode_from enc len src si j d dst) = Some e ->
    exists n, e = CorruptInputError n.
Proof.
  induction src as [|c src IH]; intros len si j d dst e.
  - cbn. destruct j as [|[|j]]; cbn; [discriminate | intros [= <-]; eauto |].
    destruct (base64.has_padding enc); cbn; [intros [= <-]; eauto | discriminate].
  - cbn [base64.decode_from].
    destruct (negb (base64.decodeMap enc c =? 255)).
    { destruct j as [|[|[|[|j]]]]; apply IH. }
    destruct (base64.is_newline c); [apply IH|].
    destruct (negb (base64.is_pad enc c)); [cbn; intros [= <-]; eauto|].
    destruct j as [|[|[|j]]]; try (cbn; intros [= <-]; eauto; fail).
    + destruct (base64.skip_newlines src (si + 1)) as [src2 si2].
      destruct src2 as [|c2 src3]; [cbn; intros [= <-]; eauto|].
      destruct (negb (base64.is_pad enc c2)); [cbn; intros [= <-]; eauto|].
      destruct (base64.skip_newlines src3 (si2 + 1)) as [src4 si4].
      destruct src4; cbn; [discriminate | intros [= <-]; eauto].
    + destruct (base64.skip_newlines src (si + 1)) as [src4 si4].
      destruct src4; cbn; [discriminate | intros [= <-]; eauto].
Qed.

Lemma DecodeString_error (enc : base64.Encoding) (s : string) (b : bytes) (e : error) :
  base64.DecodeString enc s = (b, Some e) -> exists n, e = CorruptInputError n.
Proof.
  intros H. unfold base64.DecodeString, base64.Decode in H.
  eapply decode_from_error. rewrite H. reflexivity.
Qed.

Lemma decode_config_error (config : string) (b : bytes) (e : error) :
  decode_config config = (b, Some e) -> exists n, e = CorruptInputError n.
Proof.
  intros H. apply decode_config_failed in H. destruct H as [_ H].
  destruct (base64.DecodeString base64.RawURLEncoding config) as [b' oe] eqn:E.
  cbn in H. subst oe. exact (DecodeString_error _ _ _ _ E).
Qed.

Section ExtrasLineBreaks.
Context {L : Library}.

(** X11. Line breaks anywhere in a blob are ignored by both loaders: when
    the blob without its carriage returns and line feeds is not empty, the
    run on the blob and the run on the stripped blob have the same outcome
    (the same config returned, or the same fatal message with the same
    error), but for the offset in the error of a failed base64 decoding. *)
Theorem line_breaks_are_ignored (config deployID : string) :
  strip_line_breaks config <> "" ->
  same_up_to_offset runtime_decode_failed
    (result (ParseRuntime config deployID))
    (result (ParseRuntime (strip_line_breaks config) deployID))
  /\ same_up_to_offset static_decode_failed
       (result (ParseStatic config))
       (result (ParseStatic (strip_line_breaks config))).
Proof.
  intros Hne.
  pose proof (strip_line_breaks_nonempty config Hne) as Hc.
  apply String.eqb_neq in Hne.
  split.
  - rewrite !result_ParseRuntime, Hne, Hc.
    pose proof (decode_config_strip_line_breaks config) as H.
    unfold same_decoding in H.
    destruct (decode_config config) as [b [e|]] eqn:E1;
      destruct (decode_config (strip_line_breaks config)) as [b' [e'|]] eqn:E2;
      cbn [fst snd] in H; try contradiction.
    + right.
      destruct (decode_config_error _ _ _ E1) as [n1 ->].
      destruct (decode_config_error _ _ _ E2) as [n2 ->].
      exists n1, n2. split; reflexivity.
    + subst b'. left. reflexivity.
  - rewrite !result_ParseStatic, Hne, Hc.
    pose proof (DecodeString_strip_line_breaks base64.StdEncoding
                  line_breaks_StdEncoding config) as H.
    unfold same_decoding in H.
    destruct (base64.DecodeString base64.StdEncoding config) as [b [e|]] eqn:E1;
      destruct (base64.DecodeString base64.StdEncoding (strip_line_breaks config))
        as [b' [e'|]] eqn:E2;
      cbn [fst snd] in H; try contradiction.
    + right.
      destruct (DecodeString_error _ _ _ _ E1) as [n1 ->].
      destruct (DecodeString_error _ _ _ _ E2) as [n2 ->].
      exists n1, n2. split; reflexivity.
    + subst b'. left. reflexivity.
Qed.

End ExtrasLineBreaks.

(** ** The further properties at concrete blobs *)

Lemma ParseRuntime_parse_failure_is_fatal_witness :
  result (ParseRuntime (L := Reference.library) (std_blob (Reference.payload "[1]")) "")
  = Exited runtime_parse_failed (Some (UnmarshalTypeError "array" "")).
Proof.
  apply (@ParseRuntime_parse_failure_is_fatal Reference.library
           (std_blob (Reference.payload "[1]")) "" (Reference.payload "[1]")
           (mkRuntime "" "" tt)).
  - vm_compute. discriminate.
  - vm_compute. reflexivity.
  - vm_compute. reflexivity.
Defined.

Lemma ParseStatic_parse_failure_is_fatal_witness :
  result (ParseStatic (L := Reference.library) (std_blob (Reference.payload "[1]")))
  = Exited static_parse_failed (Some (UnmarshalTypeError "array" "")).
Proof.
  rewrite (@ParseStatic_parse_failure_is_fatal Reference.library
             (std_blob (Reference.payload "[1]")) (Reference.payload "[1]") []
             (UnmarshalTypeError "array" "")).
  - reflexivity.
  - vm_compute. discriminate.
  - vm_compute. reflexivity.
  - vm_compute. reflexivity.
Defined.

Lemma ParseRuntime_returns_iff_witness :
  result (ParseRuntime (L := Reference.library) (std_blob Reference.scenario) "xyz789")
  = Returned (mkRuntime "https://api.example.com" "xyz789" tt).
Proof.
  apply (proj2 (@ParseRuntime_returns_iff Reference.library
                  (std_blob Reference.scenario) "xyz789" _)).
  vm_compute. repeat split. discriminate.
Defined.

Lemma ParseStatic_returns_iff_witness :
  result (ParseStatic (L := Reference.library) "e30=") = Returned [].
Proof.
  apply (proj2 (proj2 (@ParseStatic_returns_iff Reference.library "e30=" []))).
  split; [discriminate|]. exists (Reference.payload "{}").
  vm_compute. split; reflexivity.
Defined.

Lemma legacy_blob_same_as_std_witness :
  rawurl_blob Reference.scenario = std_blob Reference.scenario
  /\ result (ParseRuntime (L := Reference.library) (rawurl_blob Reference.scenario) "")
     = Returned (mkRuntime "https://api.example.com" "abc123" tt).
Proof.
  split; [vm_compute; reflexivity|].
  assert (Reference.scenario <> []) as Hp by (vm_compute; discriminate).
  rewrite (proj2 (@legacy_blob_same_as_std Reference.library Reference.scenario "" Hp)).
  vm_compute. reflexivity.
Defined.

Lemma trailing_line_breaks_are_ignored_witness :
  result (ParseRuntime (L := Reference.library)
            (std_blob (Reference.payload "{}") ++ Reference.CRLF) "")
  = Returned (mkRuntime "" "" tt)
  /\ result (ParseRuntime (L := Reference.library)
               (rawurl_blob (Reference.payload "{}") ++ Reference.CRLF) "")
     = Returned (mkRuntime "" "" tt).
Proof.
  assert (Reference.payload "{}" <> []) as Hp by (vm_compute; discriminate).
  assert (only_line_breaks Reference.CRLF = true) as Hnl by (vm_compute; reflexivity).
  destruct (@trailing_line_breaks_are_ignored Reference.library
              (Reference.payload "{}") Reference.CRLF "" Hp Hnl) as (H1 & H2 & _).
  rewrite H1, H2. vm_compute. split; reflexivity.
Defined.

Lemma legacy_decoder_decides_the_bytes_witness :
  decode_config "e30" = (Reference.payload "{}", None)
  /\ In (CallUnmarshal (Reference.payload "{}"))
        (calls (ParseRuntime (L := Reference.library) "e30" "")).
Proof.
  apply (@legacy_decoder_decides_the_bytes Reference.library "e30" ""
           (Reference.payload "{}")).
  - discriminate.
  - vm_compute. reflexivity.
Defined.

Lemma padded_blob_is_not_rescued_witness :
  exists e,
    snd (base64.DecodeString base64.RawURLEncoding "-w==") = Some e
    /\ result (ParseRuntime (L := Reference.library) "-w==" "")
       = Exited runtime_decode_failed (Some e).
Proof.
  apply (@padded_blob_is_not_rescued Reference.library "-w==" "").
  - vm_compute. right. right. left. reflexivity.
  - vm_compute. discriminate.
Defined.

Lemma exit_message_tells_the_stage_witness :
  result (ParseRuntime (L := Reference.library) "e30=x" "")
  = Exited runtime_decode_failed (Some (CorruptInputError 3))
  /\ snd (base64.DecodeString base64.RawURLEncoding "e30=x")
     = Some (CorruptInputError 3).
Proof.
  assert (result (ParseRuntime (L := Reference.library) "e30=x" "")
          = Exited runtime_decode_failed (Some (CorruptInputError 3))) as H
    by (vm_compute; reflexivity).
  split; [exact H|].
  destruct (@exit_message_tells_the_stage Reference.library "e30=x" "" _ _ H)
    as [(Hm & _)|[(_ & _ & _ & Hr)|[(Hm & _)|(Hm & _)]]];
    [discriminate Hm | exact Hr | discriminate Hm | discriminate Hm].
Defined.

Lemma line_breaks_are_ignored_witness :
  strip_line_breaks Reference.wrapped = "e30="
  /\ result (ParseRuntime (L := Reference.library) Reference.wrapped "")
     = Returned (mkRuntime "" "" tt)
  /\ result (ParseStatic (L := Reference.library) Reference.wrapped) = Returned [].
Proof.
  split; [vm_compute; reflexivity|].
  assert (strip_line_breaks Reference.wrapped <> "") as Hne
    by (vm_compute; discriminate).
  destruct (@line_breaks_are_ignored Reference.library Reference.wrapped "" Hne)
    as [[Hr|(n1 & n2 & _ & Hr)] [Hs|(m1 & m2 & _ & Hs)]];
    try (vm_compute in Hr; discriminate Hr);
    try (vm_compute in Hs; discriminate Hs).
  split.
  - rewrite Hr. vm_compute. reflexivity.
  - rewrite Hs. vm_compute. reflexivity.
Defined.
